(** * DoSDefender: traffic anomaly scoring and attack-pattern classification

    A shallow embedding of [src/utils/data_processing.py] and the proofs of
    the properties its specification states.

    Numbers.  Python's [float] is an IEEE 754 binary64 number.
    - [MetricsCalculator] and [AttackPatternAnalyzer] only use literals,
      [+ - * /] and comparisons: they are embedded over Rocq's primitive
      binary64 floats, so the model computes what Python computes, roundings
      included.
    - [DoSDataProcessor] is embedded twice.  The module [DoSDataProcessor]
      is the whole class over the real numbers (exact arithmetic, [option R]
      where pandas can yield NaN, [None] being NaN); it carries the
      properties that rest on counting and on the shape of the report.  The
      module [DoSDataProcessor64] is the path to the anomaly score in
      binary64, where a rounding can decide the outcome: sums follow numpy's
      pairwise reduction, means and deviations follow pandas' two-pass
      computation, and [np.log2], which belongs to the platform's
      mathematical library, is a parameter.
    - [extract_traffic_features] computes the normalized sizes in binary64;
      its entropy column, which goes through [log2], is over the real
      numbers.

    Data.  A pandas DataFrame is a record of its index and of the three
    columns the code reads ([timestamp], [source_ip], [bytes]), each optional;
    the names of any further columns are kept because [DataFrame.empty]
    depends on them.  An instant is a whole number of seconds since the epoch;
    a size is an int64 cell, a whole number below 2^63 in magnitude.
    Cells are never missing (no NaN/NaT in the input columns).

    Effects.  [DoSDataProcessor._calculate_time_metrics] mutates the frame it
    is given ([set_index(..., inplace=True)]); the functions that touch the
    caller's frame therefore return the frame's final state next to their
    result. *)

From Stdlib Require Import ZArith Reals Lra Lia Floats Sorted.
From stdpp Require Import base decidable option list gmap strings sorting.

Set Warnings "-inexact-float".
Local Open Scope string_scope.

(* ================================================================== *)
(** ** Numeric helpers *)

(** Python's builtins and numpy's reductions on binary64 floats. *)
Module Binary64.
Local Open Scope float_scope.

(** The binary64 number nearest to an integer below 2^63 in magnitude: an
    int64 cell, a length or a count. *)
Definition of_Z (z : Z) : float :=
  if (z <? 0)%Z then - PrimFloat.of_uint63 (Uint63.of_Z (- z))
  else PrimFloat.of_uint63 (Uint63.of_Z z).

Definition of_nat (n : nat) : float := of_Z (Z.of_nat n).

(** [max(a, b)]: the first argument unless the second is greater. *)
Definition py_max (a b : float) : float := if a <? b then b else a.

(** [min(a, b)]: the first argument unless the second is smaller. *)
Definition py_min (a b : float) : float := if b <? a then b else a.

(** [np.sum] of fewer than eight numbers: added one by one, from 0. *)
Definition np_sum (l : list float) : float := fold_left PrimFloat.add l 0.

(** [np.mean] of a short list: the running sum divided by the length. *)
Definition np_mean (l : list float) : float := np_sum l / of_nat (length l).
End Binary64.

(** numpy's and pandas' reductions of a binary64 array. *)
Module Numpy.
Import Binary64.
Local Open Scope float_scope.
Local Open Scope list_scope.

(** numpy adds an array of at least eight elements through eight running
    sums, each taking every eighth element. *)
Fixpoint add_blocks (blocks : nat) (r a : list float)
  : list float * list float :=
  match blocks with
  | O => (r, a)
  | S b => add_blocks b (zip_with PrimFloat.add r (take 8 a)) (drop 8 a)
  end.

(** Eight to 128 elements: the eight running sums over the whole blocks of
    eight, added pairwise, then the remaining elements one by one. *)
Definition unrolled_sum (a : list float) : float :=
  let '(r, rest) := add_blocks (length a / 8 - 1) (take 8 a) (drop 8 a) in
  match r with
  | [r0; r1; r2; r3; r4; r5; r6; r7] =>
      fold_left PrimFloat.add rest
        (((r0 + r1) + (r2 + r3)) + ((r4 + r5) + (r6 + r7)))
  | _ => nan
  end.

(** Fewer than eight elements are added one by one from 0; more than 128
    are split in two halves, the first a multiple of eight long.  The fuel
    bounds the depth of the splitting; the length of the array is enough. *)
Fixpoint pairwise_sum (fuel : nat) (a : list float) : float :=
  let n := length a in
  if (n <? 8)%nat then fold_left PrimFloat.add a 0
  else if (n <=? 128)%nat then unrolled_sum a
  else
    match fuel with
    | O => nan
    | S fuel =>
        let n2 := (n / 2)%nat in
        let n2 := (n2 - n2 mod 8)%nat in
        pairwise_sum fuel (take n2 a) + pairwise_sum fuel (drop n2 a)
    end.

(** [np.add.reduce], which [np.sum] and [ndarray.sum] call. *)
Definition add_reduce (a : list float) : float :=
  0 + pairwise_sum (length a) a.

(** [Series.mean()] of an integer column: the cells are added as binary64
    numbers. *)
Definition Series_mean (values : list Z) : float :=
  add_reduce (map of_Z values) / of_nat (length values).

(** [Series.std()] of an integer column: the sample deviation (one degree
    of freedom removed) by the two-pass computation; NaN for fewer than two
    cells. *)
Definition Series_std (values : list Z) : float :=
  let count := length values in
  if (count <=? 1)%nat then nan
  else
    let values := map of_Z values in
    let avg := add_reduce values / of_nat count in
    let sqr := map (λ x, (avg - x) * (avg - x)) values in
    PrimFloat.sqrt (add_reduce sqr / of_nat (count - 1)).
End Numpy.

(** Real-number helpers for the processor. *)
Module Real.
Local Open Scope R_scope.

Definition Rgtb (x y : R) : bool := if Rlt_dec y x then true else false.
Definition Reqb (x y : R) : bool := if Req_dec_T x y then true else false.

Definition log2 (x : R) : R := ln x / ln 2.

Definition Rsum (l : list R) : R := fold_right Rplus 0 l.

Definition Rmax_list (x : R) (l : list R) : R := fold_right Rmax x l.
End Real.

(* ================================================================== *)
(** ** The pandas objects the code works on *)

Module Pandas.
Import Real.

Inductive Index :=
| RangeIndex (n : nat)
| DatetimeIndex (ts : list Z).

Record DataFrame := mkDataFrame {
  df_index : Index;
  col_timestamp : option (list Z);
  col_source_ip : option (list string);
  col_bytes : option (list Z);
  col_others : list string
}.

Definition index_len (i : Index) : nat :=
  match i with RangeIndex n => n | DatetimeIndex ts => length ts end.

(** [len(df)] *)
Definition len (df : DataFrame) : nat := index_len (df_index df).

Definition has {A} (c : option A) : bool :=
  match c with Some _ => true | None => false end.

(** [len(df.columns)] *)
Definition n_columns (df : DataFrame) : nat :=
  ((if has (col_timestamp df) then 1 else 0)
   + (if has (col_source_ip df) then 1 else 0)
   + (if has (col_bytes df) then 1 else 0)
   + length (col_others df))%nat.

(** [df.empty]: one of the two axes has length 0. *)
Definition is_empty (df : DataFrame) : bool :=
  (len df =? 0)%nat || (n_columns df =? 0)%nat.

Definition col_ok {A} (n : nat) (c : option (list A)) : Prop :=
  match c with Some l => length l = n | None => True end.

(** Every column has one cell per row. *)
Definition well_formed (df : DataFrame) : Prop :=
  col_ok (len df) (col_timestamp df)
  /\ col_ok (len df) (col_source_ip df)
  /\ col_ok (len df) (col_bytes df).

(** [pd.DataFrame()] *)
Definition empty_frame : DataFrame :=
  mkDataFrame (RangeIndex 0) None None None [].

(** [pd.to_datetime] on a column of instants. *)
Definition to_datetime (ts : list Z) : list Z := ts.

(** [df['timestamp'] = v]: the column is replaced where it stands. *)
Definition assign_timestamp (df : DataFrame) (v : list Z) : DataFrame :=
  mkDataFrame (df_index df) (Some v) (col_source_ip df) (col_bytes df)
              (col_others df).

(** [df.set_index('timestamp')]: the column becomes the index and leaves
    the columns.  Only called on frames that have the column. *)
Definition set_index_timestamp (df : DataFrame) : DataFrame :=
  match col_timestamp df with
  | Some ts =>
      mkDataFrame (DatetimeIndex ts) None (col_source_ip df) (col_bytes df)
                  (col_others df)
  | None => df
  end.

(** *** [Series.value_counts] *)

Definition count_of (s : string) (l : list string) : nat :=
  length (filter (λ x, x = s) l).

(** The distinct values, in order of first appearance. *)
Fixpoint unique (l : list string) : list string :=
  match l with
  | [] => []
  | x :: r => x :: filter (λ y, y ≠ x) (unique r)
  end.

Fixpoint insert_desc (e : string * nat) (l : list (string * nat))
  : list (string * nat) :=
  match l with
  | [] => [e]
  | h :: t => if (snd h <=? snd e)%nat then e :: h :: t
              else h :: insert_desc e t
  end.

(** Counts per distinct value, largest first.  pandas does not fix the order
    among equal counts; here they keep the order of first appearance, and
    no property below depends on that order. *)
Definition value_counts (l : list string) : list (string * nat) :=
  fold_right insert_desc [] (map (λ s, (s, count_of s l)) (unique l)).

(** [Series.nunique] *)
Definition nunique (l : list string) : nat := length (unique l).

(** *** [resample('1T')] on a DatetimeIndex *)

Definition floor_minute (t : Z) : Z := (60 * (t / 60))%Z.

(** The labels of the one-minute bins, from the bin of the earliest instant
    to the bin of the latest one, empty bins included. *)
Definition resample_bins (ts : list Z) : list Z :=
  match ts with
  | [] => []
  | t :: r =>
      let lo := fold_right Z.min (floor_minute t) (map floor_minute r) in
      let hi := fold_right Z.max (floor_minute t) (map floor_minute r) in
      map (λ k, (lo + 60 * Z.of_nat k)%Z)
          (seq 0 (S (Z.to_nat ((hi - lo) / 60))))
  end.

(** [.resample('1T').size()] *)
Definition resample_size (ts : list Z) : list (Z * nat) :=
  map (λ b, (b, length (filter (λ t, floor_minute t = b) ts)))
      (resample_bins ts).

(** The sum of int64 cells is an int64 cell: it wraps around at 2^63. *)
Definition int64_sum (vals : list Z) : Z :=
  ((foldr Z.add 0 vals + 2 ^ 63) mod 2 ^ 64 - 2 ^ 63)%Z.

(** [.resample('1T')[col].sum()] *)
Definition resample_sum (ts : list Z) (vals : list Z) : list (Z * Z) :=
  map (λ b, (b, int64_sum
                  (map snd (filter (λ p, floor_minute (fst p) = b)
                                   (zip ts vals)))))
      (resample_bins ts).

Definition index_instants (i : Index) : list Z :=
  match i with RangeIndex _ => [] | DatetimeIndex ts => ts end.

(** [Series.map(mapper)] with another Series as the mapper: the value at
    the label, NaN ([None]) where the label is missing. *)
Fixpoint series_at {V} (s : list (Z * V)) (label : Z) : option V :=
  match s with
  | [] => None
  | (k, v) :: r => if decide (k = label) then Some v else series_at r label
  end.

(** *** Statistics of a Series (real-valued; [None] is NaN) *)
Local Open Scope R_scope.

Definition series_mean (xs : list R) : option R :=
  match xs with
  | [] => None
  | _ => Some (Rsum xs / INR (length xs))
  end.

Definition series_max (xs : list R) : option R :=
  match xs with
  | [] => None
  | x :: r => Some (Rmax_list x r)
  end.

(** Sample standard deviation (one degree of freedom removed). *)
Definition series_std (xs : list R) : option R :=
  match xs with
  | [] | [_] => None
  | _ =>
      let m := Rsum xs / INR (length xs) in
      Some (R_sqrt.sqrt (Rsum (map (λ x, (x - m) * (x - m)) xs)
                  / (INR (length xs) - 1)))
  end.
End Pandas.

(* ================================================================== *)
(** ** class DoSDataProcessor *)

Module DoSDataProcessor.
Import Real Pandas.
Local Open Scope R_scope.

Record TimeMetrics := mkTimeMetrics {
  avg_requests_per_minute : option R;
  max_requests_per_minute : option R;
  std_requests_per_minute : option R;
  avg_bytes_per_minute : option R;
  max_bytes_per_minute : option R;
  total_duration_minutes : nat;
  traffic_variability : option R
}.

Record SuspiciousSource := mkSuspiciousSource {
  sus_source_ip : string;
  sus_request_count : nat;
  sus_percentage : R;
  sus_reason : string
}.

Record SourceMetrics := mkSourceMetrics {
  unique_source_ips : nat;
  top_source_requests : nat;
  top_10_source_percentage : R;
  source_ip_entropy : R;
  source_distribution : list (string * nat);
  suspicious_sources : list SuspiciousSource
}.

Record ByteMetrics := mkByteMetrics {
  total_bytes : R;
  avg_bytes_per_request : R;
  bytes_per_second : R
}.

Record VolumeMetrics := mkVolumeMetrics {
  total_requests : nat;
  requests_per_second : R;
  byte_metrics : option ByteMetrics
}.

Record HighVolumePeriod := mkHighVolumePeriod {
  hv_timestamp : Z;
  hv_request_count : nat;
  hv_threshold : R
}.

Record Anomalies := mkAnomalies {
  high_volume_periods : list HighVolumePeriod;
  source_concentration : bool;
  unusual_patterns : list string;
  anomaly_score : R
}.

Record Metrics := mkMetrics {
  time_metrics : option TimeMetrics;      (* [None] is the empty dict *)
  source_metrics : option SourceMetrics;  (* [None] is the empty dict *)
  volume_metrics : VolumeMetrics;
  anomalies : Anomalies;
  processed_at : Z
}.

(** What [process_traffic_data] returns: the dict with the single key
    ['error'], or the dict of metrics. *)
Inductive Report :=
| ErrorReport (error : string)
| MetricsReport (m : Metrics).

(** [float(stat) if not series.empty else 0.0] *)
Definition stat_or_zero (series : list R) (stat : option R) : option R :=
  match series with [] => Some 0 | _ => stat end.

Definition _calculate_time_metrics (data : DataFrame)
  : option TimeMetrics * DataFrame :=
  match col_timestamp data with
  | None => (None, data)
  | Some _ =>
      (* data.set_index('timestamp', inplace=True) *)
      let data := set_index_timestamp data in
      let instants := index_instants (df_index data) in
      let rpm_data := map (λ p, INR (snd p)) (resample_size instants) in
      let bpm_data :=
        match col_bytes data with
        | Some b => map (λ p, IZR (snd p)) (resample_sum instants b)
        | None => []
        end in
      (Some (mkTimeMetrics
               (stat_or_zero rpm_data (series_mean rpm_data))
               (stat_or_zero rpm_data (series_max rpm_data))
               (stat_or_zero rpm_data (series_std rpm_data))
               (stat_or_zero bpm_data (series_mean bpm_data))
               (stat_or_zero bpm_data (series_max bpm_data))
               (length rpm_data)
               (match series_mean rpm_data with
                | Some m =>
                    if Rgtb m 0
                    then match series_std rpm_data with
                         | Some s => Some (s / m)
                         | None => None
                         end
                    else Some 0
                | None => Some 0
                end)),
       data)
  end.

(** In exact arithmetic; [DoSDataProcessor64._calculate_entropy] is the
    same computation in binary64. *)
Definition _calculate_entropy (values : list R) : R :=
  match values with
  | [] => 0
  | _ =>
      let total := Rsum values in
      if Reqb total 0 then 0
      else
        let probabilities := map (λ v, v / total) values in
        let probabilities := List.filter (λ p, Rgtb p 0) probabilities in
        - Rsum (map (λ p, p * log2 p) probabilities)
  end.

Definition counts_R (source_counts : list (string * nat)) : list R :=
  map (λ p, INR (snd p)) source_counts.

Definition counts_total (source_counts : list (string * nat)) : nat :=
  foldr Nat.add 0%nat (map snd source_counts).

Definition _identify_suspicious_sources (source_counts : list (string * nat))
  : list SuspiciousSource :=
  match source_counts with
  | [] => []
  | _ =>
      let total_requests := INR (counts_total source_counts) in
      let threshold := total_requests * 0.05 in
      let high_volume_sources :=
        List.filter (λ p, Rgtb (INR (snd p)) threshold) source_counts in
      map (λ p, mkSuspiciousSource (fst p) (snd p)
                  (INR (snd p) / total_requests * 100)
                  "High volume source")
          high_volume_sources
  end.

Definition _calculate_source_metrics (data : DataFrame)
  : option SourceMetrics :=
  match col_source_ip data with
  | None => None
  | Some ips =>
      let source_counts := value_counts ips in
      let unique_sources := length source_counts in
      let top_10_sources := take 10 source_counts in
      let top_source_percentage :=
        INR (counts_total top_10_sources) / INR (len data) * 100 in
      Some (mkSourceMetrics
              unique_sources
              (match source_counts with p :: _ => snd p | [] => 0%nat end)
              top_source_percentage
              (_calculate_entropy (counts_R source_counts))
              (take 20 source_counts)
              (_identify_suspicious_sources source_counts))
  end.

Definition _calculate_volume_metrics (data : DataFrame) : VolumeMetrics :=
  let total_requests := len data in
  mkVolumeMetrics
    total_requests
    (if (0 <? total_requests)%nat then INR total_requests / 3600 else 0)
    (match col_bytes data with
     | None => None
     | Some b =>
         let total_bytes := IZR (int64_sum b) in
         Some (mkByteMetrics
                 total_bytes
                 (match b with
                  | [] => 0
                  | _ => IZR (foldr Z.add 0%Z b) / INR (length b)
                  end)
                 (if Rgtb total_bytes 0 then total_bytes / 3600 else 0))
     end).

(** In exact arithmetic; the properties of the score are proved on
    [DoSDataProcessor64._calculate_anomaly_score], the same computation in
    binary64. *)
Definition _calculate_anomaly_score (data : DataFrame)
    (high_volume_periods : list HighVolumePeriod)
    (source_concentration : bool) : R :=
  let score := 0 in
  let score :=
    match high_volume_periods with
    | [] => score
    | _ => score + Rmin 3 (INR (length high_volume_periods) * 0.5)
    end in
  let score := if source_concentration then score + 3 else score in
  let score :=
    match col_source_ip data with
    | None => score
    | Some ips =>
        let source_counts := value_counts ips in
        match source_counts with
        | [] => score
        | _ =>
            let entropy := _calculate_entropy (counts_R source_counts) in
            let max_possible_entropy := log2 (INR (length source_counts)) in
            if Rgtb max_possible_entropy 0
            then
              let normalized_entropy := entropy / max_possible_entropy in
              score + (1 - normalized_entropy) * 2
            else score
        end
    end in
  let score := if (1000 <? len data)%nat then score + 2 else score in
  Rmin 10 score.

Definition _detect_traffic_anomalies (data : DataFrame) : Anomalies :=
  if is_empty data then mkAnomalies [] false [] 0
  else
    let high_volume_periods :=
      match col_timestamp data with
      | None => []
      | Some _ =>
          (* a re-indexed copy: [data] itself is left alone here *)
          let data_indexed := set_index_timestamp data in
          let minute_counts :=
            resample_size (index_instants (df_index data_indexed)) in
          let counts := map (λ p, INR (snd p)) minute_counts in
          match series_mean counts, series_std counts with
          | Some m, Some s =>
              let threshold := m + 3 * s in
              map (λ p, mkHighVolumePeriod (fst p) (snd p) threshold)
                  (List.filter (λ p, Rgtb (INR (snd p)) threshold)
                               minute_counts)
          | _, _ => []   (* empty series, or a NaN threshold *)
          end
      end in
    let source_concentration :=
      match col_source_ip data with
      | None => false
      | Some ips =>
          match value_counts ips with
          | [] => false
          | top :: _ =>
              let top_source_percentage :=
                INR (snd top) / INR (len data) * 100 in
              Rgtb top_source_percentage 20
          end
      end in
    mkAnomalies high_volume_periods source_concentration []
      (_calculate_anomaly_score data high_volume_periods
                                source_concentration).

(** [now] is the reading of [datetime.now()]; the second component is the
    caller's frame as the call leaves it. *)
Definition process_traffic_data (now : Z) (traffic_data : DataFrame)
  : Report * DataFrame :=
  if is_empty traffic_data
  then (ErrorReport "No traffic data provided", traffic_data)
  else
    let traffic_data :=
      match col_timestamp traffic_data with
      | Some ts => assign_timestamp traffic_data (to_datetime ts)
      | None => traffic_data
      end in
    let '(time_metrics, traffic_data) :=
      _calculate_time_metrics traffic_data in
    let source_metrics := _calculate_source_metrics traffic_data in
    let volume_metrics := _calculate_volume_metrics traffic_data in
    let anomalies := _detect_traffic_anomalies traffic_data in
    (MetricsReport
       (mkMetrics time_metrics source_metrics volume_metrics anomalies now),
     traffic_data).
End DoSDataProcessor.

(* ================================================================== *)
(** ** class DoSDataProcessor in binary64: the anomaly score *)

Module DoSDataProcessor64.
Import Pandas Binary64.
Local Open Scope float_scope.
Local Open Scope list_scope.

Record HighVolumePeriod := mkHighVolumePeriod {
  hv_timestamp : Z;
  hv_request_count : nat;
  hv_threshold : float
}.

Record Anomalies := mkAnomalies {
  high_volume_periods : list HighVolumePeriod;
  source_concentration : bool;
  unusual_patterns : list string;
  anomaly_score : float
}.

Section Log2.

(** [np.log2] on a binary64 number. *)
Variable log2 : float -> float.

(** [values] are the counts of [value_counts], an integer array. *)
Definition _calculate_entropy (values : list nat) : float :=
  match values with
  | [] => 0
  | _ =>
      let total := foldr Nat.add 0%nat values in
      if (total =? 0)%nat then 0
      else
        let probabilities := map (λ v, of_nat v / of_nat total) values in
        let probabilities := List.filter (λ p, 0 <? p) probabilities in
        - Numpy.add_reduce (map (λ p, p * log2 p) probabilities)
  end.

Definition _calculate_anomaly_score (data : DataFrame)
    (high_volume_periods : list HighVolumePeriod)
    (source_concentration : bool) : float :=
  let score := 0 in
  let score :=
    match high_volume_periods with
    | [] => score
    | _ => score + py_min 3 (of_nat (length high_volume_periods) * 0.5)
    end in
  let score := if source_concentration then score + 3 else score in
  let score :=
    match col_source_ip data with
    | None => score
    | Some ips =>
        let source_counts := value_counts ips in
        match source_counts with
        | [] => score
        | _ =>
            let entropy := _calculate_entropy (map snd source_counts) in
            let max_possible_entropy :=
              log2 (of_nat (length source_counts)) in
            if 0 <? max_possible_entropy
            then
              let normalized_entropy := entropy / max_possible_entropy in
              score + (1 - normalized_entropy) * 2
            else score
        end
    end in
  let score := if (1000 <? len data)%nat then score + 2 else score in
  py_min 10 score.

Definition _detect_traffic_anomalies (data : DataFrame) : Anomalies :=
  if is_empty data then mkAnomalies [] false [] 0
  else
    let high_volume_periods :=
      match col_timestamp data with
      | None => []
      | Some _ =>
          (* a re-indexed copy: [data] itself is left alone here *)
          let data_indexed := set_index_timestamp data in
          let minute_counts :=
            resample_size (index_instants (df_index data_indexed)) in
          match minute_counts with
          | [] => []
          | _ =>
              let counts := map (λ p, Z.of_nat (snd p)) minute_counts in
              let threshold :=
                Numpy.Series_mean counts + 3 * Numpy.Series_std counts in
              map (λ p, mkHighVolumePeriod (fst p) (snd p) threshold)
                  (List.filter (λ p, threshold <? of_nat (snd p))
                               minute_counts)
          end
      end in
    let source_concentration :=
      match col_source_ip data with
      | None => false
      | Some ips =>
          match value_counts ips with
          | [] => false
          | top :: _ =>
              let top_source_percentage :=
                of_nat (snd top) / of_nat (len data) * 100 in
              20 <? top_source_percentage
          end
      end in
    mkAnomalies high_volume_periods source_concentration []
      (_calculate_anomaly_score data high_volume_periods
                                source_concentration).

(** The ['anomalies'] entry of the report ([None] when the report is the
    error entry), and the caller's frame as the call leaves it.  Of the
    three computations that come before the detection only
    [_calculate_time_metrics] touches the frame. *)
Definition process_traffic_data (traffic_data : DataFrame)
  : option Anomalies * DataFrame :=
  if is_empty traffic_data then (None, traffic_data)
  else
    let traffic_data :=
      match col_timestamp traffic_data with
      | Some ts => assign_timestamp traffic_data (to_datetime ts)
      | None => traffic_data
      end in
    let traffic_data :=
      snd (DoSDataProcessor._calculate_time_metrics traffic_data) in
    (Some (_detect_traffic_anomalies traffic_data), traffic_data).
End Log2.
End DoSDataProcessor64.

(* ================================================================== *)
(** ** class AttackPatternAnalyzer *)

Module AttackPatternAnalyzer.
Import Pandas Binary64.
Local Open Scope float_scope.
Local Open Scope list_scope.

Record Pattern := mkPattern {
  description : string;
  characteristics : list (string * bool);
  detection_rules : list string
}.

(** The catalog, in the order the dict literal lists it (the order in
    which a scan of all patterns visits it). *)
Definition _load_known_patterns : list (string * Pattern) :=
  [ ("syn_flood",
     mkPattern "TCP SYN flood attack pattern"
       [("high_syn_ratio", true); ("incomplete_connections", true);
        ("rapid_connection_attempts", true)]
       ["syn_packet_rate > normal_rate * 10";
        "connection_completion_rate < 0.1"]);
    ("udp_flood",
     mkPattern "UDP flood attack pattern"
       [("high_udp_volume", true); ("random_ports", true);
        ("small_packet_sizes", true)]
       ["udp_packet_rate > normal_rate * 5";
        "port_distribution_entropy > threshold"]);
    ("http_flood",
     mkPattern "HTTP flood attack pattern"
       [("high_request_rate", true); ("similar_user_agents", true);
        ("repetitive_requests", true)]
       ["http_request_rate > normal_rate * 3";
        "user_agent_diversity < threshold"]);
    ("amplification",
     mkPattern "DNS/NTP amplification attack"
       [("spoofed_sources", true); ("large_response_packets", true);
        ("specific_query_types", true)]
       ["response_size / request_size > 10";
        "source_ip_spoofing_indicators"]) ].

(** [self.known_patterns], set once by [__init__]. *)
Definition known_patterns : list (string * Pattern) := _load_known_patterns.

(** [dict.get(name)] *)
Fixpoint get (d : list (string * Pattern)) (name : string) : option Pattern :=
  match d with
  | [] => None
  | (k, v) :: r => if decide (k = name) then Some v else get r name
  end.

(** [dict.keys()] *)
Definition keys (d : list (string * Pattern)) : list string := map fst d.

Record PatternMatch := mkPatternMatch {
  pattern_name : string;
  pm_description : string;
  confidence : float;
  (** ["Factor i: cf"], kept as the pair (i, cf) rather than as text *)
  indicators : list (nat * float);
  severity : string
}.

Record Results := mkResults {
  detected_patterns : list PatternMatch;
  confidence_scores : gmap string float;
  recommendations : list string;
  attack_characteristics : gmap string string
}.

(** [data['bytes'].mean()] on an integer column. *)
Definition bytes_mean (b : list Z) : float := Numpy.Series_mean b.

Definition _analyze_syn_flood_pattern (data : DataFrame) : list float :=
  let confidence_factors : list float := [] in
  let confidence_factors :=
    if (1000 <? len data)%nat then confidence_factors ++ [0.7]
    else confidence_factors in
  match col_source_ip data with
  | None => confidence_factors
  | Some ips =>
      match value_counts ips with
      | [] => confidence_factors
      | top :: _ =>
          let top_source_percentage :=
            of_nat (snd top) / of_nat (len data) * 100 in
          if 30 <? top_source_percentage then confidence_factors ++ [0.8]
          else confidence_factors ++ [0.3]
      end
  end.

Definition _analyze_udp_flood_pattern (data : DataFrame) : list float :=
  let confidence_factors : list float := [] in
  let confidence_factors :=
    if (500 <? len data)%nat then confidence_factors ++ [0.6]
    else confidence_factors in
  match col_source_ip data with
  | None => confidence_factors
  | Some ips =>
      let unique_sources := nunique ips in
      if (100 <? unique_sources)%nat then confidence_factors ++ [0.7]
      else confidence_factors ++ [0.4]
  end.

Definition _analyze_http_flood_pattern (data : DataFrame) : list float :=
  if (2000 <? len data)%nat then [0.8]
  else if (800 <? len data)%nat then [0.5]
  else [0.2].

Definition _analyze_amplification_pattern (data : DataFrame) : list float :=
  match col_bytes data with
  | None => []
  | Some b =>
      let avg_size := bytes_mean b in
      if 1000 <? avg_size then [0.7] else [0.3]
  end.

(** The "Determine severity" step of [_analyze_specific_pattern]. *)
Definition severity_of (confidence : float) : string :=
  if 0.8 <? confidence then "high"
  else if 0.5 <? confidence then "medium"
  else "low".

Definition _analyze_specific_pattern (data : DataFrame)
    (pattern_name : string) : PatternMatch :=
  let pattern := get known_patterns pattern_name in
  let result :=
    mkPatternMatch pattern_name
      (match pattern with Some p => description p | None => "" end)
      0 [] "low" in
  match pattern with
  | None => result
  | Some _ =>
      if is_empty data then result
      else
        let confidence_factors :=
          if decide (pattern_name = "syn_flood")
          then _analyze_syn_flood_pattern data
          else if decide (pattern_name = "udp_flood")
          then _analyze_udp_flood_pattern data
          else if decide (pattern_name = "http_flood")
          then _analyze_http_flood_pattern data
          else if decide (pattern_name = "amplification")
          then _analyze_amplification_pattern data
          else [] in
        let confidence :=
          match confidence_factors with
          | [] => 0
          | _ => np_mean confidence_factors
          end in
        mkPatternMatch pattern_name (pm_description result) confidence
          (imap (λ i cf, (S i, cf)) confidence_factors)
          (severity_of confidence)
  end.

Definition general_recommendations : list string :=
  [ "Activate enhanced monitoring and alerting";
    "Consider enabling DDoS protection services";
    "Document incident for future analysis" ].

Definition _generate_recommendations (detected_patterns : list PatternMatch)
  : list string :=
  match detected_patterns with
  | [] =>
      ["No specific attack patterns detected - continue normal monitoring"]
  | _ =>
      let pattern_names :=
        map pattern_name
            (List.filter (λ p, 0.5 <? confidence p) detected_patterns) in
      let recommendations : list string := [] in
      let recommendations :=
        if bool_decide ("syn_flood" ∈ pattern_names)
        then recommendations ++
               [ "Enable SYN cookies on servers";
                 "Configure SYN flood protection on firewalls";
                 "Implement connection rate limiting" ]
        else recommendations in
      let recommendations :=
        if bool_decide ("udp_flood" ∈ pattern_names)
        then recommendations ++
               [ "Implement UDP rate limiting";
                 "Configure ingress filtering";
                 "Enable UDP flood protection" ]
        else recommendations in
      let recommendations :=
        if bool_decide ("http_flood" ∈ pattern_names)
        then recommendations ++
               [ "Enable HTTP request rate limiting";
                 "Deploy Web Application Firewall (WAF)";
                 "Implement CAPTCHA challenges for suspicious sources" ]
        else recommendations in
      let recommendations :=
        if bool_decide ("amplification" ∈ pattern_names)
        then recommendations ++
               [ "Implement BCP38 ingress filtering";
                 "Configure response rate limiting on public services";
                 "Monitor for source IP spoofing" ]
        else recommendations in
      let recommendations := recommendations ++ general_recommendations in
      (* list(set(recommendations)): the order is whatever the set yields *)
      elements (list_to_set recommendations : gset string)
  end.

(** [attack_type] is [None] when the argument is left out. *)
Definition analyze_attack_pattern (traffic_data : DataFrame)
    (attack_type : option string) : Results :=
  if is_empty traffic_data then mkResults [] ∅ [] ∅
  else
    let scan_all :=
      List.filter (λ r, 0.3 <? confidence r)
        (map (_analyze_specific_pattern traffic_data) (keys known_patterns))
    in
    let detected_patterns :=
      match attack_type with
      | None => scan_all
      | Some t =>
          (* [if attack_type:] an empty string counts as no argument *)
          if decide (t = "") then scan_all
          else [_analyze_specific_pattern traffic_data t]
      end in
    mkResults detected_patterns ∅
              (_generate_recommendations detected_patterns) ∅.
End AttackPatternAnalyzer.

(* ================================================================== *)
(** ** class MetricsCalculator *)

(** Numeric arguments are binary64 floats; a Python int below 2^53 passed
  instead converts to the same value. *)
Module MetricsCalculator.
Import Binary64.
Local Open Scope float_scope.
Local Open Scope list_scope.

Record Severity := mkSeverity {
  overall_severity : float;
  volume_impact : float;
  duration_impact : float;
  service_impact : float;
  severity_level : string
}.

Definition _get_severity_level (score : float) : string :=
  if 8 <=? score then "Critical"
  else if 6 <=? score then "High"
  else if 4 <=? score then "Medium"
  else if 2 <=? score then "Low"
  else "Minimal".

Definition calculate_attack_severity
    (traffic_volume baseline_volume duration_minutes : float)
    (affected_services : Z) : Severity :=
  let volume_ratio :=
    if 0 <? baseline_volume then traffic_volume / baseline_volume else 1 in
  let volume_score :=
    if 10 <? volume_ratio then 4
    else if 5 <? volume_ratio then 3
    else if 2 <? volume_ratio then 2
    else if 1.5 <? volume_ratio then 1
    else 0 in
  let duration_score :=
    if 240 <? duration_minutes then 3
    else if 60 <? duration_minutes then 2
    else if 15 <? duration_minutes then 1
    else 0.5 in
  let service_score :=
    if (5 <? affected_services)%Z then 3
    else if (2 <? affected_services)%Z then 2
    else if (0 <? affected_services)%Z then 1
    else 0 in
  let total_score := volume_score + duration_score + service_score in
  mkSeverity total_score volume_score duration_score service_score
             (_get_severity_level total_score).

(** The block the function repeats for each of its three metrics: the
    metric must be in both dicts and positive before mitigation. *)
Definition improvement (key : string)
    (baseline_metrics current_metrics : gmap string float) : option float :=
  match baseline_metrics !! key, current_metrics !! key with
  | Some baseline, Some current =>
      if 0 <? baseline
      then
        let percentage := (baseline - current) / baseline * 100 in
        Some (py_max 0 (py_min 100 percentage))
      else None
  | _, _ => None
  end.

(** [effectiveness[key] = v] on a key that is not there yet. *)
Definition set_item (effectiveness : list (string * float))
    (key : string) (v : option float) : list (string * float) :=
  match v with
  | Some x => effectiveness ++ [(key, x)]
  | None => effectiveness
  end.

(** The returned dict, as its items in insertion order. *)
Definition calculate_mitigation_effectiveness
    (baseline_metrics current_metrics : gmap string float)
  : list (string * float) :=
  let effectiveness : list (string * float) := [] in
  let effectiveness :=
    set_item effectiveness "traffic_reduction"
      (improvement "traffic_volume" baseline_metrics current_metrics) in
  let effectiveness :=
    set_item effectiveness "response_time_improvement"
      (improvement "response_time" baseline_metrics current_metrics) in
  let effectiveness :=
    set_item effectiveness "error_rate_reduction"
      (improvement "error_rate" baseline_metrics current_metrics) in
  match effectiveness with
  | [] => effectiveness
  | _ =>
      let overall := np_mean (map snd effectiveness) in
      effectiveness ++ [("overall_effectiveness", overall)]
  end.

Record BusinessImpact := mkBusinessImpact {
  direct_revenue_loss : float;
  recovery_costs : float;
  opportunity_cost : float;
  reputation_damage : float;
  total_business_impact : float;
  impact_per_hour : float
}.

(** The default of [reputation_impact_factor]. *)
Definition default_reputation_impact_factor : float := 0.3.

Definition calculate_business_impact
    (hourly_revenue outage_duration_hours
     performance_degradation_percent reputation_impact_factor : float)
  : BusinessImpact :=
  let direct_loss :=
    if 100 <=? performance_degradation_percent
    then hourly_revenue * outage_duration_hours
    else
      let impact_factor := performance_degradation_percent / 100 in
      hourly_revenue * outage_duration_hours * impact_factor in
  let recovery_costs := direct_loss * 0.15 in
  let opportunity_cost := direct_loss * 0.25 in
  let reputation_damage := direct_loss * reputation_impact_factor in
  let total_impact :=
    direct_loss + recovery_costs + opportunity_cost + reputation_damage in
  mkBusinessImpact direct_loss recovery_costs opportunity_cost
    reputation_damage total_impact
    (total_impact / py_max outage_duration_hours 0.1).
End MetricsCalculator.

(* ================================================================== *)
(** ** extract_traffic_features *)

Module Features.
Import Real Pandas.
Local Open Scope R_scope.

Record FeatureTable := mkFeatureTable {
  ft_index : Index;
  hour : option (list Z);
  day_of_week : option (list Z);
  minute : option (list Z);
  source_ip_frequency : option (list (option nat));
  source_ip_entropy : option (list R);
  request_size : option (list Z);
  request_size_normalized : option (list float);
  requests_per_minute : option (list (option nat))
}.

(** [len(features)] *)
Definition n_rows (f : FeatureTable) : nat := index_len (ft_index f).

(** [pd.DataFrame()] *)
Definition empty_table : FeatureTable :=
  mkFeatureTable (RangeIndex 0) None None None None None None None None.

(** The [.dt] accessors ([dayofweek] counts from Monday = 0; the epoch
    was a Thursday). *)
Definition dt_hour (t : Z) : Z := ((t / 3600) mod 24)%Z.
Definition dt_dayofweek (t : Z) : Z := ((t / 86400 + 3) mod 7)%Z.
Definition dt_minute (t : Z) : Z := ((t / 60) mod 60)%Z.

(** [Series.map(ip_counts)]: the count at the label, NaN where missing. *)
Fixpoint counts_at (ip_counts : list (string * nat)) (ip : string)
  : option nat :=
  match ip_counts with
  | [] => None
  | (k, v) :: r => if decide (k = ip) then Some v else counts_at r ip
  end.

(** [(bytes - bytes.mean()) / bytes.std()], in binary64: each size becomes
    a binary64 number, and the mean and the deviation of the whole column
    are the same for every row. *)
Definition normalized_sizes (b : list Z) : list float :=
  map (λ x, (Binary64.of_Z x - Numpy.Series_mean b) / Numpy.Series_std b)%float
      b.

(** The second component is the caller's frame as the call leaves it.
    The first column stored into the empty table brings the frame's index
    with it; the later ones align on that same index. *)
Definition extract_traffic_features (traffic_data : DataFrame)
  : FeatureTable * DataFrame :=
  if is_empty traffic_data then (empty_table, traffic_data)
  else
    let index := df_index traffic_data in
    (* time-based features *)
    let traffic_data :=
      match col_timestamp traffic_data with
      | Some ts => assign_timestamp traffic_data (to_datetime ts)
      | None => traffic_data
      end in
    let ts := col_timestamp traffic_data in
    (* source features *)
    let ip_counts := value_counts <$> col_source_ip traffic_data in
    let total_requests := len traffic_data in
    (* request rate features, computed on a copy of the frame *)
    let minute_counts :=
      (λ _, let traffic_data_copy := set_index_timestamp traffic_data in
            resample_size (index_instants (df_index traffic_data_copy)))
      <$> ts in
    let any_column :=
      has ts || has (col_source_ip traffic_data)
      || has (col_bytes traffic_data) in
    (mkFeatureTable
       (if any_column then index else RangeIndex 0)
       (map dt_hour <$> ts)
       (map dt_dayofweek <$> ts)
       (map dt_minute <$> ts)
       (ips ← col_source_ip traffic_data;
        counts ← ip_counts;
        Some (map (counts_at counts) ips))
       (ips ← col_source_ip traffic_data;
        counts ← ip_counts;
        Some (map (λ p, if Rgtb p 0 then - p * log2 p else 0)
                  (map (λ ip, INR (default 0%nat (counts_at counts ip))
                              / INR total_requests) ips)))
       (col_bytes traffic_data)
       (normalized_sizes <$> col_bytes traffic_data)
       (instants ← ts;
        counts ← minute_counts;
        Some (map (series_at counts) (map floor_minute instants))),
     traffic_data).
End Features.


(* ================================================================== *)
(** ** Vocabulary of the specification *)

Module Spec.
Import Real Pandas DoSDataProcessor.
Local Open Scope R_scope.

(** *** Sample batches *)

(** No row, the three columns present. *)
Definition no_rows : DataFrame :=
  mkDataFrame (RangeIndex 0) (Some []) (Some []) (Some []) [].

(** One request: instant 0, one source, 100 bytes. *)
Definition one_request : DataFrame :=
  mkDataFrame (RangeIndex 1) (Some [0%Z]) (Some ["10.0.0.1"]) (Some [100%Z])
              [].

(** One row with a source column only. *)
Definition single_source : DataFrame :=
  mkDataFrame (RangeIndex 1) None (Some ["10.0.0.1"]) None [].

(** Two rows with a source column only. *)
Definition two_sources : DataFrame :=
  mkDataFrame (RangeIndex 2) None (Some ["10.0.0.1"; "10.0.0.2"]) None [].

(** Two rows that carry none of the three fields, only a label column. *)
Definition unlabelled : DataFrame :=
  mkDataFrame (RangeIndex 2) None None None ["attack_type"].

(** 2001 rows that carry only a label column. *)
Definition large_batch : DataFrame :=
  mkDataFrame (RangeIndex 2001) None None None ["attack_type"].

(** Three requests in two minutes, from two sources, of three sizes. *)
Definition three_requests : DataFrame :=
  mkDataFrame (RangeIndex 3) (Some [10%Z; 75%Z; 20%Z])
              (Some ["10.0.0.1"; "10.0.0.2"; "10.0.0.1"])
              (Some [100%Z; 400%Z; 1300%Z]) [].

(** Four requests within one minute, from two sources. *)
Definition same_minute : DataFrame :=
  mkDataFrame (RangeIndex 4) (Some [5%Z; 20%Z; 59%Z; 31%Z])
              (Some ["10.0.0.1"; "10.0.0.2"; "10.0.0.1"; "10.0.0.1"])
              None [].

(** Eleven requests, each from a source of its own. *)
Definition eleven_sources : DataFrame :=
  mkDataFrame (RangeIndex 11) None
    (Some ["10.0.0.1"; "10.0.0.2"; "10.0.0.3"; "10.0.0.4"; "10.0.0.5";
           "10.0.0.6"; "10.0.0.7"; "10.0.0.8"; "10.0.0.9"; "10.0.0.10";
           "10.0.0.11"])
    None [].


(** *** Feature tables *)

(** The cell of a column at row [i], if the column and the row exist. *)
Definition cell {A} (column : option (list A)) (i : nat) : option A :=
  column ≫= (λ l, l !! i).

(** The batch has one of the three fields the extractor reads. *)
Definition any_field (B : DataFrame) : bool :=
  has (col_timestamp B) || has (col_source_ip B) || has (col_bytes B).

(** The entropy contribution of a source that makes up the share [p] of
    the batch. *)
Definition entropy_contribution (p : R) : R :=
  if Rgtb p 0 then - p * log2 p else 0.

(** The size [x], less the mean of the column [b] and divided by its
    deviation, in binary64. *)
Definition normalized_size (b : list Z) (x : Z) : float :=
  ((Binary64.of_Z x - Numpy.Series_mean b) / Numpy.Series_std b)%float.

(** *** [calculate_mitigation_effectiveness] *)

(** The three metrics the function compares, each with the key its
    improvement is reported under. *)
Definition metric_keys : list (string * string) :=
  [ ("traffic_volume", "traffic_reduction");
    ("response_time", "response_time_improvement");
    ("error_rate", "error_rate_reduction") ].

(** *** [AttackPatternAnalyzer] *)

(** Every value the confidence of a pattern match can take: 0 (no factor),
    or the mean of one of the factor lists the four pattern analyses can
    build. *)
Definition possible_confidences : list float :=
  0%float ::
  map Binary64.np_mean
    [ [0.7]; [0.7; 0.8]; [0.7; 0.3]; [0.8]; [0.3];
      [0.6]; [0.6; 0.7]; [0.6; 0.4]; [0.4];
      [0.5]; [0.2] ]%float.
End Spec.

(** The composite anomaly score: the formula of the specification and the
    formula the code follows, both in binary64. *)
Module ScoreSpec.
Import Pandas Binary64 DoSDataProcessor64.
Local Open Scope float_scope.



(** The entropy term as the code adds it to [score]: only for a batch with
    a source column, and only when [np.log2] of the number of distinct
    sources is above 0. *)
Definition entropy_term (log2 : float -> float)
    (sources : option (list string)) (score : float) : float :=
  match sources with
  | None => score
  | Some ips =>
      match value_counts ips with
      | [] => score
      | source_counts =>
          let k := of_nat (length source_counts) in
          if 0 <? log2 k
          then score + (1 - _calculate_entropy log2 (map snd source_counts)
                            / log2 k) * 2
          else score
      end
  end.

(** The score without a term for high-volume windows:
    min(10, 3 if concentration flag + entropy term + 2 if batch size >
    1000). *)
Definition score_without_windows (log2 : float -> float)
    (concentration : bool) (sources : option (list string))
    (batch_size : nat) : float :=
  let score := entropy_term log2 sources (if concentration then 3 else 0) in
  py_min 10 (if (1000 <? batch_size)%nat then score + 2 else score).

(** [np.log2] at the five arguments the sample batches reach, as a
    correctly rounded logarithm returns them; NaN elsewhere. *)
Definition sample_log2 (x : float) : float :=
  if x =? 1 then 0
  else if x =? 2 then 1
  else if x =? 0.5 then -1
  else if x =? 11 then 0x1.bacea7c065d42p+1
  else if x =? 0x1.745d1745d1746p-4 then -0x1.bacea7c065d42p+1
  else nan.
End ScoreSpec.

(** Further vocabulary, for the properties of the second part. *)
Module Vocabulary.
Import Real Pandas DoSDataProcessor.

(** Largest count first. *)
Definition count_ge (a b : string * nat) : Prop := (snd b <= snd a)%nat.
End Vocabulary.

(* ================================================================== *)
(** * Properties *)

(** ** Facts about binary64 comparisons *)

Module Binary64Facts.
Import Binary64.
Local Open Scope float_scope.

Lemma ltb_leb (x y : float) : (x <? y) = true -> (x <=? y) = true.
Proof.
  rewrite ltb_spec, leb_spec. unfold SFltb, SFleb.
  destruct (SFcompare _ _) as [[]|]; congruence.
Qed.

(** Two floats that compare differently are different. *)
Lemma float_neq (x y : float) : (x =? y) = false -> (y =? y) = true -> x <> y.
Proof. intros Hxy Hyy ->. congruence. Qed.

(** [max(0, min(100, x))] is in [0, 100] whatever [x] is, NaN and the
    infinities included. *)
Lemma clamp_bounds (x : float) :
  (0 <=? py_max 0 (py_min 100 x)) = true
  /\ (py_max 0 (py_min 100 x) <=? 100) = true.
Proof.
  unfold py_min. destruct (x <? 100) eqn:Hhi; unfold py_max.
  - destruct (0 <? x) eqn:Hlo.
    + split; apply ltb_leb; assumption.
    + split; reflexivity.
  - split; reflexivity.
Qed.
End Binary64Facts.

(** ** Facts about real numbers and entropy *)

Module RealFacts.
Import Real Pandas DoSDataProcessor Spec.
Local Open Scope R_scope.

Lemma Rgtb_true (x y : R) : y < x -> Rgtb x y = true.
Proof.
  intros H. unfold Rgtb. destruct (Rlt_dec y x); [reflexivity|contradiction].
Qed.

Lemma Rgtb_false (x y : R) : ~ y < x -> Rgtb x y = false.
Proof.
  intros H. unfold Rgtb. destruct (Rlt_dec y x); [contradiction|reflexivity].
Qed.

Lemma Rgtb_lt (x y : R) : Rgtb x y = true -> y < x.
Proof. unfold Rgtb. destruct (Rlt_dec y x); [trivial|discriminate]. Qed.

Lemma Rgtb_not_lt (x y : R) : Rgtb x y = false -> ~ y < x.
Proof. unfold Rgtb. destruct (Rlt_dec y x); [discriminate|trivial]. Qed.

Lemma ln2_pos : 0 < ln 2.
Proof. pose proof ln_lt_2. lra. Qed.

Lemma log2_1 : log2 1 = 0.
Proof. unfold log2. rewrite ln_1. unfold Rdiv. ring. Qed.

Lemma Rsum_cons (x : R) (l : list R) : Rsum (x :: l) = x + Rsum l.
Proof. reflexivity. Qed.

Lemma Rsum_nil : Rsum [] = 0.
Proof. reflexivity. Qed.

Lemma Rsum_nonneg (xs : list R) : Forall (λ x, 0 <= x) xs -> 0 <= Rsum xs.
Proof.
  induction 1 as [|x xs Hx _ IH]; rewrite ?Rsum_nil, ?Rsum_cons; lra.
Qed.

End RealFacts.

(** ** MetricsCalculator *)

Module MetricsCalculatorFacts.
Import Binary64 Binary64Facts MetricsCalculator Spec.
Local Open Scope float_scope.

(** C4, as amended: [calculate_attack_severity(1000, 100, 300, 6)] has a
    volume ratio of exactly 10, which is not above 10, so the volume score
    is 3 (not 4); with duration score 3 and service score 3 the overall
    severity is 9 and the level is "Critical". *)
Theorem attack_severity_scenario :
  calculate_attack_severity 1000 100 300 6
  = mkSeverity 9 3 3 3 "Critical".
Proof. vm_compute. reflexivity. Qed.

(** C4, as stated (volume score 4 and overall severity 10), fails. *)
Lemma attack_severity_scenario_not_ten :
  let r := calculate_attack_severity 1000 100 300 6 in
  volume_impact r <> 4 /\ overall_severity r <> 10.
Proof. split; apply float_neq; reflexivity. Qed.

(** C7: [calculate_business_impact(10000, 4, 100)] with the default
    reputation factor 0.3 gives direct loss 40000, recovery costs 6000,
    opportunity cost 10000, reputation damage 12000 and total 68000, in
    binary64 arithmetic. *)
Theorem business_impact_scenario :
  let r := calculate_business_impact 10000 4 100
             default_reputation_impact_factor in
  direct_revenue_loss r = 40000
  /\ recovery_costs r = 6000
  /\ opportunity_cost r = 10000
  /\ reputation_damage r = 12000
  /\ total_business_impact r = 68000.
Proof. vm_compute. repeat split. Qed.

(** *** [calculate_mitigation_effectiveness] *)

Lemma improvement_bounds key b c v :
  improvement key b c = Some v -> (0 <=? v) = true /\ (v <=? 100) = true.
Proof.
  unfold improvement.
  destruct (b !! key) as [x|]; [|discriminate].
  destruct (c !! key) as [y|]; [|discriminate].
  destruct (0 <? x); [|discriminate].
  intros [= <-]. apply clamp_bounds.
Qed.

Lemma improvement_absent key (b c : gmap string float) :
  b !! key = None \/ c !! key = None -> improvement key b c = None.
Proof.
  unfold improvement. intros [-> | ->]; [reflexivity|].
  destruct (b !! key); reflexivity.
Qed.

(** C8: every per-metric improvement of [calculate_mitigation_effectiveness]
    lies in [0, 100]; a metric missing from either dict is skipped; and
    when none of the three metrics is in both dicts the result is the empty
    dict, without an overall entry (the function is total: nothing is
    raised). *)
Theorem mitigation_effectiveness_report (b c : gmap string float) :
  let e := calculate_mitigation_effectiveness b c in
  (forall k v, (k, v) ∈ e -> k <> "overall_effectiveness" ->
               (0 <=? v) = true /\ (v <=? 100) = true)
  /\ (forall metric key, (metric, key) ∈ metric_keys ->
        b !! metric = None \/ c !! metric = None -> key ∉ e.*1)
  /\ ((forall metric, metric ∈ metric_keys.*1 ->
         b !! metric = None \/ c !! metric = None) -> e = []).
Proof.
  cbv zeta. unfold calculate_mitigation_effectiveness.
  split; [|split].
  - intros k v Hin Hk.
    destruct (improvement "traffic_volume" b c) as [v1|] eqn:H1;
    destruct (improvement "response_time" b c) as [v2|] eqn:H2;
    destruct (improvement "error_rate" b c) as [v3|] eqn:H3;
    cbn in Hin;
    repeat (apply elem_of_cons in Hin as [Hin|Hin];
            [injection Hin as -> ->; try congruence;
             eauto using improvement_bounds |]);
    apply elem_of_nil in Hin; contradiction.
  - intros metric key Hm Habs.
    unfold metric_keys in Hm.
    repeat (apply elem_of_cons in Hm as [Hm|Hm];
            [injection Hm as -> ->;
             rewrite (improvement_absent _ _ _ Habs) |]);
    [ | | | apply elem_of_nil in Hm; contradiction ];
    repeat (destruct (improvement _ b c)); cbn;
    rewrite ?elem_of_cons, elem_of_nil; intuition discriminate.
  - intros Hall.
    rewrite !improvement_absent; [reflexivity | | |];
    apply Hall; cbn; rewrite !elem_of_cons; auto.
Qed.
End MetricsCalculatorFacts.

(** ** AttackPatternAnalyzer *)

Module AttackPatternAnalyzerFacts.
Import Pandas Binary64 Binary64Facts AttackPatternAnalyzer Spec.
Local Open Scope float_scope.

(** The order of binary64 numbers around two positive numbers of the same
    exponent: it is total on numbers, and NaN is above nothing. *)
Lemma sf_order (m1 m2 : positive) (e0 : Z) (x : spec_float) :
  (m2 < m1)%positive ->
  let a := S754_finite false m1 e0 in
  let b := S754_finite false m2 e0 in
  (SFltb a x = true -> SFltb b x = true)
  /\ (SFltb a x = false -> SFltb b x = true -> SFleb x a = true)
  /\ (SFleb x a = true -> SFltb a x = false).
Proof.
  intros Hlt. unfold SFltb, SFleb.
  destruct x as [s|s| |s m e]; cbn -[Z.compare Pos.compare_cont].
  - destruct s; auto.
  - destruct s; auto.
  - auto.
  - destruct s; [auto|].
    rewrite (Z.compare_antisym e0 e).
    destruct (e0 ?= e)%Z eqn:He; cbn -[Pos.compare_cont]; auto.
    change (PosDef.Pos.compare_cont Eq) with Pos.compare.
    rewrite (Pos.compare_antisym m1 m).
    destruct (Pos.compare_spec m1 m) as [H1|H1|H1];
      destruct (Pos.compare_spec m2 m) as [H2|H2|H2].
    all: unfold CompOpp.
    all: repeat split; intros; try reflexivity; try discriminate; lia.
Qed.

Lemma Prim2SF_08 : Prim2SF 0.8 = S754_finite false 7205759403792794 (-53).
Proof. vm_compute. reflexivity. Qed.

Lemma Prim2SF_05 : Prim2SF 0.5 = S754_finite false 4503599627370496 (-53).
Proof. vm_compute. reflexivity. Qed.

(** How a confidence stands to the two tier thresholds. *)
Lemma threshold_order (c : float) :
  ((0.8 <? c) = true -> (0.5 <? c) = true)
  /\ ((0.8 <? c) = false -> (0.5 <? c) = true -> (c <=? 0.8) = true)
  /\ ((c <=? 0.8) = true -> (0.8 <? c) = false).
Proof.
  rewrite !ltb_spec, !leb_spec, Prim2SF_08, Prim2SF_05.
  apply sf_order. vm_compute. reflexivity.
Qed.

Lemma severity_of_thresholds (c : float) :
  (severity_of c = "high" <-> (0.8 <? c) = true)
  /\ (severity_of c = "medium" <-> (0.5 <? c) = true /\ (c <=? 0.8) = true)
  /\ (severity_of c = "low" <-> (0.5 <? c) = false).
Proof.
  destruct (threshold_order c) as (Ha & Hb & Hc). unfold severity_of.
  destruct (0.8 <? c) eqn:H8.
  - rewrite (Ha eq_refl).
    repeat split; try discriminate; try reflexivity.
    intros [_ Hle]. specialize (Hc Hle). discriminate.
  - destruct (0.5 <? c) eqn:H5.
    + repeat split; try discriminate; try reflexivity.
      apply Hb; reflexivity.
    + repeat split; try discriminate; try reflexivity.
      intros [? _]; discriminate.
Qed.

Lemma severity_from_confidence (data : DataFrame) (name : string) :
  let r := _analyze_specific_pattern data name in
  severity r = severity_of (confidence r).
Proof.
  cbv zeta. unfold _analyze_specific_pattern.
  destruct (get known_patterns name); [|reflexivity].
  destruct (is_empty data); reflexivity.
Qed.

(** C5: for every batch and every pattern name, the severity tier is
    "high" exactly when confidence > 0.8, "medium" exactly when
    0.5 < confidence <= 0.8 and "low" otherwise; a confidence of exactly 0.8
    gives "medium" and one of exactly 0.5 gives "low". *)
Theorem severity_tier_thresholds (data : DataFrame) (name : string) :
  let r := _analyze_specific_pattern data name in
  (severity r = "high" <-> (0.8 <? confidence r) = true)
  /\ (severity r = "medium"
      <-> (0.5 <? confidence r) = true /\ (confidence r <=? 0.8) = true)
  /\ (severity r = "low" <-> (0.5 <? confidence r) = false)
  /\ (confidence r = 0.8 -> severity r = "medium")
  /\ (confidence r = 0.5 -> severity r = "low").
Proof.
  cbv zeta. rewrite severity_from_confidence.
  destruct (severity_of_thresholds
              (confidence (_analyze_specific_pattern data name)))
    as (Hh & Hm & Hl).
  split; [exact Hh | split; [exact Hm | split; [exact Hl | split]]];
    intros ->; reflexivity.
Qed.

(** *** The confidences that can occur *)

Lemma confidence_cases (data : DataFrame) (name : string) :
  In (confidence (_analyze_specific_pattern data name)) possible_confidences.
Proof.
  unfold _analyze_specific_pattern, known_patterns, _load_known_patterns.
  cbn [get].
  repeat (case_decide; [subst name|]);
    try (left; reflexivity);
    (destruct (is_empty data); [left; reflexivity|]);
    cbn [confidence];
    rewrite ?decide_True by reflexivity;
    rewrite ?decide_False by discriminate;
    rewrite ?decide_True by reflexivity.
  - unfold _analyze_syn_flood_pattern.
    destruct (1000 <? len data)%nat; destruct (col_source_ip data) as [ips|];
      try destruct (value_counts ips) as [|top ?];
      try destruct (30 <? _);
      vm_compute; repeat (first [left; reflexivity | right]).
  - unfold _analyze_udp_flood_pattern.
    destruct (500 <? len data)%nat; destruct (col_source_ip data) as [ips|];
      try destruct (100 <? nunique ips)%nat;
      vm_compute; repeat (first [left; reflexivity | right]).
  - unfold _analyze_http_flood_pattern.
    destruct (2000 <? len data)%nat; [|destruct (800 <? len data)%nat];
      vm_compute; repeat (first [left; reflexivity | right]).
  - unfold _analyze_amplification_pattern.
    destruct (col_bytes data) as [b|]; try destruct (1000 <? bytes_mean b);
      vm_compute; repeat (first [left; reflexivity | right]).
Qed.

Lemma possible_confidences_bounded :
  forallb (λ c, (c <=? 0.8) && negb (String.eqb (severity_of c) "high"))
          possible_confidences = true.
Proof. vm_compute. reflexivity. Qed.

(** C10: for every batch and every pattern name (the four of the catalog
    included), the confidence computed by [_analyze_specific_pattern] never
    exceeds 0.8, so the severity tier is never "high". *)
Theorem confidence_at_most_08 (data : DataFrame) (name : string) :
  let r := _analyze_specific_pattern data name in
  (confidence r <=? 0.8) = true /\ severity r <> "high".
Proof.
  cbv zeta. rewrite severity_from_confidence.
  pose proof possible_confidences_bounded as Hall.
  rewrite forallb_forall in Hall.
  specialize (Hall _ (confidence_cases data name)).
  apply andb_prop in Hall as [Hle Hsev]. split; [exact Hle|].
  intros Heq. rewrite Heq in Hsev. discriminate.
Qed.

(** *** Names that are not in the catalog *)

Lemma unknown_pattern_match (data : DataFrame) (name : string) :
  get known_patterns name = None ->
  _analyze_specific_pattern data name = mkPatternMatch name "" 0 [] "low".
Proof. intros H. unfold _analyze_specific_pattern. rewrite H. reflexivity. Qed.

Lemma general_recommendations_NoDup : NoDup general_recommendations.
Proof.
  unfold general_recommendations.
  repeat (apply NoDup_cons; split;
          [rewrite ?elem_of_cons, elem_of_nil; intuition discriminate|]).
  apply NoDup_nil. constructor.
Qed.

Lemma recommendations_low_confidence (m : PatternMatch) :
  (0.5 <? confidence m) = false ->
  _generate_recommendations [m]
  = elements (list_to_set general_recommendations : gset string).
Proof.
  intros H. unfold _generate_recommendations. cbn [List.filter].
  rewrite H. reflexivity.
Qed.

(** C2, as amended: for every non-empty batch and every non-empty pattern
    name that is not in the catalog, [analyze_attack_pattern] raises nothing:
    it reports exactly one match for that name, with an empty description,
    confidence 0, no indicator and severity "low", and recommends the three
    general measures (in some order). *)
Theorem unknown_pattern_reported (data : DataFrame) (name : string) :
  is_empty data = false ->
  get known_patterns name = None ->
  name <> "" ->
  let r := analyze_attack_pattern data (Some name) in
  detected_patterns r = [mkPatternMatch name "" 0 [] "low"]
  /\ recommendations r ≡ₚ general_recommendations.
Proof.
  intros Hne Hget Hname. cbv zeta. unfold analyze_attack_pattern.
  rewrite Hne. destruct (decide (name = "")) as [|_]; [contradiction|].
  rewrite (unknown_pattern_match _ _ Hget). cbn [detected_patterns recommendations].
  split; [reflexivity|].
  rewrite recommendations_low_confidence by reflexivity.
  apply elements_list_to_set, general_recommendations_NoDup.
Qed.

Lemma unknown_pattern_reported_witness :
  is_empty two_sources = false
  /\ get known_patterns "slowloris" = None
  /\ detected_patterns (analyze_attack_pattern two_sources (Some "slowloris"))
     = [mkPatternMatch "slowloris" "" 0 [] "low"].
Proof.
  split; [reflexivity | split; [reflexivity|]].
  apply (unknown_pattern_reported two_sources "slowloris");
    [reflexivity | reflexivity | discriminate].
Defined.

(** C2, as stated, fails: asking for a name that is not in the catalog
    returns a report, and the report holds a match for that name. *)
Lemma unknown_pattern_not_refused :
  is_empty two_sources = false
  /\ get known_patterns "slowloris" = None
  /\ exists m,
       m ∈ detected_patterns
             (analyze_attack_pattern two_sources (Some "slowloris"))
       /\ pattern_name m = "slowloris".
Proof.
  split; [reflexivity | split; [reflexivity|]].
  exists (mkPatternMatch "slowloris" "" 0 [] "low").
  split; [|reflexivity]. vm_compute. left.
Qed.
End AttackPatternAnalyzerFacts.

(** ** DoSDataProcessor *)

Module DoSDataProcessorFacts.
Import Real Pandas DoSDataProcessor Spec RealFacts.
Local Open Scope R_scope.

(** *** What [process_traffic_data] does to the caller's frame *)

Lemma process_frame (now : Z) (B : DataFrame) :
  is_empty B = false ->
  snd (process_traffic_data now B) = set_index_timestamp B.
Proof.
  intros Hne. unfold process_traffic_data. rewrite Hne.
  unfold _calculate_time_metrics, set_index_timestamp, assign_timestamp,
    to_datetime.
  destruct (col_timestamp B) as [ts|] eqn:Hts; cbn; [reflexivity|].
  rewrite Hts. reflexivity.
Qed.

Lemma process_report (now : Z) (B : DataFrame) :
  is_empty B = false ->
  exists tm,
    fst (process_traffic_data now B)
    = MetricsReport
        (mkMetrics tm
           (_calculate_source_metrics (set_index_timestamp B))
           (_calculate_volume_metrics (set_index_timestamp B))
           (_detect_traffic_anomalies (set_index_timestamp B))
           now).
Proof.
  intros Hne. unfold process_traffic_data. rewrite Hne.
  unfold _calculate_time_metrics, set_index_timestamp, assign_timestamp,
    to_datetime.
  destruct (col_timestamp B) as [ts|] eqn:Hts; cbn.
  - eexists. reflexivity.
  - rewrite Hts. eexists. reflexivity.
Qed.

(** C1, as amended: for every empty batch (no row, or no column),
    [process_traffic_data] raises nothing and returns the dict that holds
    only ['error': 'No traffic data provided'] -- no count, total, entropy or
    anomaly score is reported -- and leaves the batch as it was. *)
Theorem process_empty_batch (now : Z) (B : DataFrame) :
  is_empty B = true ->
  process_traffic_data now B = (ErrorReport "No traffic data provided", B).
Proof. intros H. unfold process_traffic_data. rewrite H. reflexivity. Qed.

Lemma process_empty_batch_witness :
  is_empty no_rows = true
  /\ process_traffic_data 0 no_rows
     = (ErrorReport "No traffic data provided", no_rows).
Proof. split; [reflexivity | apply process_empty_batch; reflexivity]. Defined.

(** C1, as stated, fails: on an empty batch there is no report of zeroed
    metrics, only the error entry. *)
Lemma process_empty_batch_no_metrics :
  is_empty no_rows = true
  /\ ~ exists m, fst (process_traffic_data 0 no_rows) = MetricsReport m.
Proof.
  split; [reflexivity|]. intros [m Hm].
  rewrite process_empty_batch in Hm by reflexivity. discriminate.
Qed.

(** C3 fails on the code: processing a batch that has a timestamp column
    changes the caller's batch -- the column has left the columns and has
    replaced the index. *)
Theorem process_mutates_batch :
  is_empty one_request = false
  /\ snd (process_traffic_data 0 one_request)
     = mkDataFrame (DatetimeIndex [0%Z]) None (Some ["10.0.0.1"])
                   (Some [100%Z]) []
  /\ snd (process_traffic_data 0 one_request) <> one_request.
Proof.
  split; [reflexivity|].
  rewrite process_frame by reflexivity.
  split; [reflexivity | discriminate].
Qed.

(** *** The frame after [set_index] *)

Lemma set_index_len (B : DataFrame) :
  well_formed B -> len (set_index_timestamp B) = len B.
Proof.
  intros (Hts & _). unfold set_index_timestamp.
  destruct (col_timestamp B) as [ts|]; [exact Hts | reflexivity].
Qed.

Lemma set_index_source (B : DataFrame) :
  col_source_ip (set_index_timestamp B) = col_source_ip B.
Proof. unfold set_index_timestamp. destruct (col_timestamp B); reflexivity. Qed.

Lemma set_index_not_empty (B : DataFrame) :
  well_formed B -> is_empty B = false ->
  col_timestamp B = None \/ (1 < n_columns B)%nat ->
  is_empty (set_index_timestamp B) = false.
Proof.
  intros Hwf Hne Hcol. unfold is_empty in *.
  rewrite (set_index_len _ Hwf).
  apply orb_false_iff in Hne as [Hlen Hn]. rewrite Hlen. cbn [orb].
  apply Nat.eqb_neq in Hn. apply Nat.eqb_neq.
  unfold set_index_timestamp, n_columns in *.
  destruct (col_timestamp B) as [ts|] eqn:Hts; [|rewrite Hts; exact Hn].
  destruct Hcol as [?|Hcols]; [discriminate|].
  cbn in *. lia.
Qed.

End DoSDataProcessorFacts.

(** ** The anomaly score, in binary64 *)

Module AnomalyScoreFacts.
Import Pandas Binary64 DoSDataProcessor64 Spec ScoreSpec Binary64Facts.
Local Open Scope float_scope.


(** Inside [process_traffic_data] the detection runs on the frame that
    [_calculate_time_metrics] has re-indexed. *)
Lemma process_detects_on_indexed_frame (log2 : float -> float)
    (B : DataFrame) :
  is_empty B = false ->
  process_traffic_data log2 B
  = (Some (_detect_traffic_anomalies log2 (set_index_timestamp B)),
     set_index_timestamp B).
Proof.
  intros Hne. unfold process_traffic_data. rewrite Hne.
  unfold DoSDataProcessor._calculate_time_metrics, set_index_timestamp,
    assign_timestamp, to_datetime.
  destruct (col_timestamp B) as [ts|] eqn:Hts; cbn; [reflexivity|].
  rewrite Hts. reflexivity.
Qed.


Lemma anomaly_score_no_windows (log2 : float -> float) (D : DataFrame)
    (conc : bool) :
  _calculate_anomaly_score log2 D [] conc
  = score_without_windows log2 conc (col_source_ip D) (len D).
Proof.
  unfold _calculate_anomaly_score, score_without_windows, entropy_term.
  cbv zeta.
  replace (if conc then 0 + 3 else 0) with (if conc then 3 else 0)
    by (destruct conc; reflexivity).
  destruct (col_source_ip D) as [ips|]; [|reflexivity].
  destruct (value_counts ips); reflexivity.
Qed.



(** *** Where the score leaves the formula of the specification *)

Lemma entropy_term_counts (log2 : float -> float) (ips : list string)
    (p : string * nat) (l : list (string * nat)) (score : float) :
  value_counts ips = p :: l ->
  entropy_term log2 (Some ips) score
  = let k := of_nat (S (length l)) in
    if 0 <? log2 k
    then score
         + (1 - _calculate_entropy log2 (snd p :: map snd l) / log2 k) * 2
    else score.
Proof. intros H. unfold entropy_term. rewrite H. reflexivity. Qed.

(** One source: whenever [np.log2(1)] is not above 0, the score is 3, the
    concentration term alone. *)
Lemma single_source_score (log2 : float -> float) :
  (0 <? log2 1) = false ->
  fst (process_traffic_data log2 single_source)
  = Some (mkAnomalies [] true [] 3).
Proof.
  intros H1. rewrite process_detects_on_indexed_frame by reflexivity.
  cbn [fst]. f_equal.
  unfold _detect_traffic_anomalies.
  change (set_index_timestamp single_source) with single_source.
  change (is_empty single_source) with false.
  change (col_timestamp single_source) with (@None (list Z)).
  cbv beta iota. rewrite anomaly_score_no_windows.
  change (col_source_ip single_source) with (Some ["10.0.0.1"]).
  change (len single_source) with 1%nat.
  cbv beta iota.
  assert (Hvc : value_counts ["10.0.0.1"] = [("10.0.0.1", 1%nat)])
    by reflexivity.
  rewrite Hvc. cbv beta iota.
  change (20 <? of_nat (snd ("10.0.0.1", 1%nat)) / of_nat 1 * 100) with true.
  unfold score_without_windows.
  rewrite (entropy_term_counts log2 _ _ _ _ Hvc). cbv zeta.
  cbn [length]. change (of_nat 1) with 1. rewrite H1. reflexivity.
Qed.

(** Eleven sources with one request each: whenever [np.log2] returns the
    correctly rounded logarithms of 1/11 and of 11, the entropy comes out as
    3.4594316186372978, above log2(11) = 3.4594316186372973, and the score is
    -2^-51, below 0. *)
Lemma eleven_sources_score (log2 : float -> float) :
  log2 0x1.745d1745d1746p-4 = -0x1.bacea7c065d42p+1 ->
  log2 11 = 0x1.bacea7c065d42p+1 ->
  fst (process_traffic_data log2 eleven_sources)
  = Some (mkAnomalies [] false [] (-0x1p-51)).
Proof.
  intros Hp Hk. rewrite process_detects_on_indexed_frame by reflexivity.
  cbn [fst]. f_equal.
  unfold _detect_traffic_anomalies.
  change (set_index_timestamp eleven_sources) with eleven_sources.
  change (is_empty eleven_sources) with false.
  change (col_timestamp eleven_sources) with (@None (list Z)).
  cbv beta iota. rewrite anomaly_score_no_windows.
  set (ips := ["10.0.0.1"; "10.0.0.2"; "10.0.0.3"; "10.0.0.4"; "10.0.0.5";
               "10.0.0.6"; "10.0.0.7"; "10.0.0.8"; "10.0.0.9"; "10.0.0.10";
               "10.0.0.11"]).
  change (col_source_ip eleven_sources) with (Some ips).
  change (len eleven_sources) with 11%nat.
  cbv beta iota.
  assert (Hvc : exists p l,
            value_counts ips = p :: l
            /\ snd p :: map snd l = repeat 1%nat 11
            /\ S (length l) = 11%nat
            /\ (20 <? of_nat (snd p) / of_nat 11 * 100) = false).
  { eexists _, _. split; [vm_compute; reflexivity|].
    repeat split; vm_compute; reflexivity. }
  destruct Hvc as (p & l & Hvc & Hcounts & Hlen & Hconc).
  rewrite Hvc. cbv beta iota. rewrite Hconc.
  unfold score_without_windows.
  rewrite (entropy_term_counts log2 _ _ _ _ Hvc). cbv zeta.
  rewrite Hcounts, Hlen. change (of_nat 11) with 11. rewrite Hk.
  change (0 <? 0x1.bacea7c065d42p+1) with true. cbv iota.
  assert (He : _calculate_entropy log2 (repeat 1%nat 11)
               = - Numpy.add_reduce
                     (repeat (0x1.745d1745d1746p-4
                              * log2 0x1.745d1745d1746p-4) 11))
    by reflexivity.
  rewrite He, Hp. vm_compute. reflexivity.
Qed.

End AnomalyScoreFacts.

(** ** extract_traffic_features *)

Module FeaturesFacts.
Import Real Pandas Features Spec.

Lemma cell_map {A B} (f : A -> B) (c : option (list A)) (i : nat) :
  cell (map f <$> c) i = f <$> cell c i.
Proof. destruct c as [l|]; cbn; [apply list_lookup_fmap | reflexivity]. Qed.

Lemma cell_empty_column {A} (n : nat) (c : option (list A)) (i : nat) :
  col_ok n c -> n = 0%nat -> cell c i = None.
Proof.
  destruct c as [l|]; cbn; [|reflexivity].
  intros Hl ->. apply nil_length_inv in Hl as ->. reflexivity.
Qed.

(** Storing the converted timestamps back leaves the frame as it is. *)
Lemma timestamps_stored_back (B : DataFrame) :
  match col_timestamp B with
  | Some ts => assign_timestamp B (to_datetime ts)
  | None => B
  end = B.
Proof. destruct B as [idx ts ips b others]. destruct ts; reflexivity. Qed.

(** C9, as amended: for every batch that has at least one of the timestamp,
    source and bytes columns, the feature table has exactly one row per
    observation, and every column of row [i] is computed from observation
    [i]: its hour, day of week and minute from the i-th instant, its source
    frequency and entropy contribution from the i-th source, its request
    size and normalized size from the i-th size, and its
    requests-per-minute from the minute of the i-th instant.  Every batch
    that has none of the three columns gives the empty table. *)
Theorem features_row_per_observation (B : DataFrame) :
  well_formed B ->
  let F := fst (extract_traffic_features B) in
  (any_field B = false -> F = empty_table)
  /\ (any_field B = true ->
      n_rows F = len B
      /\ forall i : nat,
           cell (hour F) i = dt_hour <$> cell (col_timestamp B) i
           /\ cell (day_of_week F) i
              = dt_dayofweek <$> cell (col_timestamp B) i
           /\ cell (minute F) i = dt_minute <$> cell (col_timestamp B) i
           /\ cell (source_ip_frequency F) i
              = (ips ← col_source_ip B;
                 counts_at (value_counts ips) <$> ips !! i)
           /\ cell (source_ip_entropy F) i
              = (ips ← col_source_ip B;
                 (λ ip, entropy_contribution
                          (INR (default 0%nat
                                  (counts_at (value_counts ips) ip))
                           / INR (len B))) <$> ips !! i)
           /\ cell (request_size F) i = cell (col_bytes B) i
           /\ cell (request_size_normalized F) i
              = (b ← col_bytes B; normalized_size b <$> b !! i)
           /\ cell (requests_per_minute F) i
              = (ts ← col_timestamp B;
                 (λ t, series_at (resample_size ts) (floor_minute t))
                 <$> ts !! i)).
Proof.
  intros (Hts & Hips & Hb). cbv zeta. unfold extract_traffic_features.
  rewrite timestamps_stored_back. unfold any_field.
  destruct (is_empty B) eqn:Hempty; cbn [fst].
  - split; [reflexivity|]. intros Hany.
    assert (Hlen : len B = 0%nat).
    { unfold is_empty in Hempty. apply orb_true_iff in Hempty as [H|H].
      - apply Nat.eqb_eq, H.
      - apply Nat.eqb_eq in H. unfold n_columns in H.
        destruct (has (col_timestamp B)), (has (col_source_ip B)),
          (has (col_bytes B)); cbn in *; try discriminate; lia. }
    split; [symmetry; exact Hlen|]. intros i.
    rewrite !(cell_empty_column _ (col_timestamp B) i Hts Hlen).
    rewrite (cell_empty_column _ (col_bytes B) i Hb Hlen).
    assert (Hnone : forall (A C : Type) (c : option (list A))
                      (f : list A -> A -> C),
              col_ok (len B) c -> (l ← c; f l <$> l !! i) = None).
    { intros A C [l|] f Hl; cbn in *; [|reflexivity].
      rewrite Hlen in Hl. apply nil_length_inv in Hl as ->. reflexivity. }
    rewrite (Hnone _ _ (col_source_ip B)
               (λ ips, counts_at (value_counts ips)) Hips).
    rewrite (Hnone _ _ (col_source_ip B)
               (λ ips ip, entropy_contribution
                            (INR (default 0%nat
                                    (counts_at (value_counts ips) ip))
                             / INR (len B))) Hips).
    rewrite (Hnone _ _ (col_bytes B) normalized_size Hb).
    rewrite (Hnone _ _ (col_timestamp B)
               (λ ts t, series_at (resample_size ts) (floor_minute t)) Hts).
    repeat split; reflexivity.
  - split.
    + intros Hany. rewrite Hany.
      destruct (col_timestamp B), (col_source_ip B), (col_bytes B);
        try discriminate. reflexivity.
    + intros Hany. rewrite Hany. split; [reflexivity|]. intros i.
      cbn [hour day_of_week minute source_ip_frequency source_ip_entropy
           request_size request_size_normalized requests_per_minute].
      rewrite !cell_map. repeat split; try reflexivity.
      * destruct (col_source_ip B) as [ips|]; cbn; [|reflexivity].
        apply list_lookup_fmap.
      * destruct (col_source_ip B) as [ips|]; cbn; [|reflexivity].
        rewrite !list_lookup_fmap. destruct (ips !! i); reflexivity.
      * destruct (col_bytes B) as [b|]; cbn; [|reflexivity].
        unfold normalized_sizes. apply list_lookup_fmap.
      * unfold set_index_timestamp.
        destruct (col_timestamp B) as [ts|]; cbn; [|reflexivity].
        rewrite !list_lookup_fmap.
        destruct (ts !! i); reflexivity.
Qed.

Lemma features_row_per_observation_witness :
  well_formed three_requests
  /\ any_field three_requests = true
  /\ n_rows (fst (extract_traffic_features three_requests)) = 3%nat
  /\ cell (hour (fst (extract_traffic_features three_requests))) 1
     = dt_hour <$> Some 75%Z
  /\ cell (request_size_normalized
             (fst (extract_traffic_features three_requests))) 2
     = Some (normalized_size [100%Z; 400%Z; 1300%Z] 1300%Z).
Proof.
  assert (Hwf : well_formed three_requests) by (repeat split).
  split; [exact Hwf | split; [reflexivity|]].
  destruct (features_row_per_observation three_requests Hwf)
    as [_ Hrows].
  destruct (Hrows eq_refl) as [Hn Hcells].
  split; [exact Hn|].
  split; [apply (Hcells 1%nat) | apply (Hcells 2%nat)].
Defined.

(** C9, as stated, fails: two observations that carry none of the three
    fields give a feature table without any row. *)
Lemma features_no_row_without_fields :
  len unlabelled = 2%nat
  /\ n_rows (fst (extract_traffic_features unlabelled)) = 0%nat.
Proof. split; reflexivity. Qed.
End FeaturesFacts.

(* ================================================================== *)
(** * Further properties of the code *)

(** ** The pandas operations *)

Module PandasFacts.
Import Real Pandas DoSDataProcessor.

Lemma filter_all {A} (P : A -> Prop) `{!forall x, Decision (P x)}
    (l : list A) :
  Forall P l -> filter P l = l.
Proof.
  induction 1 as [|x l Hx _ IH]; [reflexivity|].
  rewrite filter_cons_True by assumption. rewrite IH. reflexivity.
Qed.

(** *** [unique] and [count_of] *)

Lemma elem_of_unique (l : list string) (x : string) : x ∈ unique l <-> x ∈ l.
Proof.
  induction l as [|a l IH]; cbn [unique]; [reflexivity|].
  rewrite !elem_of_cons, list_elem_of_filter, IH.
  destruct (decide (x = a)); intuition congruence.
Qed.

Lemma NoDup_unique (l : list string) : NoDup (unique l).
Proof.
  induction l as [|a l IH]; cbn [unique]; [constructor|].
  apply NoDup_cons. split.
  - rewrite list_elem_of_filter. intros [? _]. congruence.
  - apply NoDup_filter, IH.
Qed.

Lemma count_of_cons (s a : string) (l : list string) :
  count_of s (a :: l)
  = ((if decide (a = s) then 1 else 0) + count_of s l)%nat.
Proof.
  unfold count_of. rewrite filter_cons. destruct (decide (a = s)); reflexivity.
Qed.

Lemma count_of_pos (s : string) (l : list string) :
  s ∈ l -> (1 <= count_of s l)%nat.
Proof.
  induction l as [|a l IH]; [intros H; inversion H|].
  rewrite count_of_cons, elem_of_cons. intros [->|H].
  - case_decide; [lia | congruence].
  - specialize (IH H). lia.
Qed.

Lemma count_of_perm (s : string) (l l' : list string) :
  l ≡ₚ l' -> count_of s l = count_of s l'.
Proof. intros H. unfold count_of. rewrite H. reflexivity. Qed.

Lemma counts_total_perm (sc sc' : list (string * nat)) :
  sc ≡ₚ sc' -> counts_total sc = counts_total sc'.
Proof.
  unfold counts_total. induction 1; cbn; lia.
Qed.

(** Summing the counts of the values of a duplicate-free list [u] counts
    the cells of [l] that are in [u]. *)
Lemma counts_total_filter (u l : list string) :
  NoDup u ->
  counts_total (map (λ s, (s, count_of s l)) u)
  = length (filter (λ x, x ∈ u) l).
Proof.
  intros Hu. induction l as [|a l IH].
  - unfold counts_total. induction u as [|s u IHu]; [reflexivity|].
    cbn. apply NoDup_cons in Hu as [_ Hu]. exact (IHu Hu).
  - rewrite filter_cons. 
    assert (Hstep : counts_total (map (λ s, (s, count_of s (a :: l))) u)
                    = ((if decide (a ∈ u) then 1 else 0)
                       + counts_total (map (λ s, (s, count_of s l)) u))%nat).
    { clear IH. unfold counts_total. induction Hu as [|s u Hs Hu IHu];
        [rewrite decide_False by (intros H; inversion H); reflexivity|].
      cbn [map foldr snd]. rewrite IHu, count_of_cons.
      repeat case_decide; subst; try lia; exfalso;
        rewrite elem_of_cons in *; intuition congruence. }
    rewrite Hstep, IH. destruct (decide (a ∈ u)); reflexivity.
Qed.

(** *** [value_counts] *)

Lemma insert_desc_perm (e : string * nat) (l : list (string * nat)) :
  insert_desc e l ≡ₚ e :: l.
Proof.
  induction l as [|h t IH]; cbn [insert_desc]; [reflexivity|].
  destruct (snd h <=? snd e)%nat; [reflexivity|].
  rewrite IH. apply Permutation_swap.
Qed.

Lemma value_counts_perm (l : list string) :
  value_counts l ≡ₚ map (λ s, (s, count_of s l)) (unique l).
Proof.
  unfold value_counts.
  induction (map (λ s, (s, count_of s l)) (unique l)) as [|e r IH];
    cbn [fold_right]; [reflexivity|].
  rewrite insert_desc_perm, IH. reflexivity.
Qed.

Lemma value_counts_length (l : list string) :
  length (value_counts l) = nunique l.
Proof.
  rewrite (Permutation_length (value_counts_perm l)).
  unfold nunique. apply length_map.
Qed.

Lemma elem_of_value_counts (l : list string) (s : string) (c : nat) :
  (s, c) ∈ value_counts l <-> s ∈ l /\ c = count_of s l.
Proof.
  rewrite (value_counts_perm l), list_elem_of_fmap.
  split.
  - intros (x & [= -> ->] & Hx). rewrite elem_of_unique in Hx.
    split; [assumption | reflexivity].
  - intros (Hs & ->). exists s. split; [reflexivity|].
    apply elem_of_unique, Hs.
Qed.

(** The counts add up to the number of cells. *)
Lemma value_counts_total (l : list string) :
  counts_total (value_counts l) = length l.
Proof.
  rewrite (counts_total_perm _ _ (value_counts_perm l)).
  rewrite counts_total_filter by apply NoDup_unique.
  rewrite filter_all; [reflexivity|].
  apply Forall_forall. intros x Hx. apply elem_of_unique, Hx.
Qed.
End PandasFacts.

Module ValueCountsFacts.
Import Real Pandas DoSDataProcessor PandasFacts Vocabulary.

(** *** Order of [value_counts] *)

Lemma insert_desc_sorted (e : string * nat) (l : list (string * nat)) :
  StronglySorted count_ge l -> StronglySorted count_ge (insert_desc e l).
Proof.
  induction 1 as [|h t Ht IH Hall]; cbn [insert_desc].
  - repeat constructor.
  - destruct (snd h <=? snd e)%nat eqn:Hle.
    + apply Nat.leb_le in Hle. constructor; [constructor; assumption|].
      constructor; [exact Hle|].
      eapply Forall_impl; [exact Hall|]. unfold count_ge. intros; lia.
    + apply Nat.leb_gt in Hle. constructor; [exact IH|].
      rewrite insert_desc_perm. constructor; [unfold count_ge; lia | exact Hall].
Qed.

Lemma value_counts_sorted (l : list string) :
  StronglySorted count_ge (value_counts l).
Proof.
  unfold value_counts.
  induction (map (λ s, (s, count_of s l)) (unique l)) as [|e r IH];
    cbn [fold_right]; [constructor | apply insert_desc_sorted, IH].
Qed.

(** The first entry of [value_counts] has the largest count. *)
Lemma value_counts_head_max (l : list string) (top : string * nat)
    (rest : list (string * nat)) :
  value_counts l = top :: rest ->
  forall p, p ∈ value_counts l -> (snd p <= snd top)%nat.
Proof.
  intros Hvc p Hp. pose proof (value_counts_sorted l) as Hs.
  rewrite Hvc in Hs, Hp. apply StronglySorted_inv in Hs as [_ Hall].
  apply elem_of_cons in Hp as [->|Hp]; [lia|].
  rewrite Forall_forall in Hall. apply Hall, Hp.
Qed.

Lemma counts_total_le_max (sc : list (string * nat)) (m : nat) :
  (forall p, p ∈ sc -> (snd p <= m)%nat) ->
  (counts_total sc <= length sc * m)%nat.
Proof.
  unfold counts_total. induction sc as [|p sc IH]; intros H; cbn; [lia|].
  assert (snd p <= m)%nat by (apply H; left).
  assert (forall q, q ∈ sc -> (snd q <= m)%nat)
    by (intros q Hq; apply H; right; exact Hq).
  specialize (IH ltac:(assumption)). cbn in IH. lia.
Qed.

Lemma value_counts_keys_NoDup (l : list string) :
  NoDup (map fst (value_counts l)).
Proof.
  rewrite (value_counts_perm l), map_map. cbn. rewrite map_id.
  apply NoDup_unique.
Qed.

Lemma counts_at_elem (sc : list (string * nat)) (s : string) (c : nat) :
  NoDup (map fst sc) -> (s, c) ∈ sc -> Features.counts_at sc s = Some c.
Proof.
  induction sc as [|[k v] sc IH]; cbn [map fst Features.counts_at];
    intros Hnd Hin; [inversion Hin|].
  apply NoDup_cons in Hnd as [Hk Hnd].
  apply elem_of_cons in Hin as [[= -> ->]|Hin].
  - rewrite decide_True by reflexivity. reflexivity.
  - rewrite decide_False; [apply IH; assumption|].
    intros ->. apply Hk. apply list_elem_of_fmap. exists (s, c). auto.
Qed.

(** [Series.map(value_counts)] finds the count of every value of the
    column. *)
Lemma counts_at_value_counts (l : list string) (s : string) :
  s ∈ l -> Features.counts_at (value_counts l) s = Some (count_of s l).
Proof.
  intros Hs. apply counts_at_elem; [apply value_counts_keys_NoDup|].
  apply elem_of_value_counts. auto.
Qed.
End ValueCountsFacts.

(** ** Source metrics and entropy *)

Module SourceFacts.
Import Real Pandas DoSDataProcessor Spec Vocabulary.
Import RealFacts PandasFacts ValueCountsFacts DoSDataProcessorFacts.
Local Open Scope R_scope.

Lemma counts_total_cons (p : string * nat) (sc : list (string * nat)) :
  counts_total (p :: sc) = (snd p + counts_total sc)%nat.
Proof. reflexivity. Qed.

Lemma counts_total_filter_le (f : string * nat -> bool)
    (sc : list (string * nat)) :
  (counts_total (List.filter f sc) <= counts_total sc)%nat.
Proof.
  induction sc as [|p sc IH]; cbn [List.filter]; [lia|].
  destruct (f p); rewrite !counts_total_cons; lia.
Qed.

Lemma counts_total_take_le (n : nat) (sc : list (string * nat)) :
  (counts_total (take n sc) <= counts_total sc)%nat.
Proof.
  revert n. induction sc as [|p sc IH]; intros [|n]; cbn [take];
    rewrite ?counts_total_cons; try (unfold counts_total; cbn; lia).
  specialize (IH n). lia.
Qed.

Lemma counts_total_elem (p : string * nat) (sc : list (string * nat)) :
  p ∈ sc -> (snd p <= counts_total sc)%nat.
Proof.
  induction sc as [|q sc IH]; intros H; [inversion H|].
  rewrite counts_total_cons. apply elem_of_cons in H as [->|H]; [lia|].
  specialize (IH H). lia.
Qed.

(** Entries that are all above a threshold weigh more than as many times
    the threshold. *)
Lemma above_threshold_total (th : R) (sc : list (string * nat)) :
  (forall p, p ∈ sc -> th < INR (snd p)) ->
  INR (length sc) * th <= INR (counts_total sc)
  /\ (sc <> [] -> INR (length sc) * th < INR (counts_total sc)).
Proof.
  induction sc as [|p sc IH]; intros H.
  - cbn. split; [lra | congruence].
  - assert (Hp : th < INR (snd p)) by (apply H; left).
    destruct IH as [IH _]; [intros q Hq; apply H; right; exact Hq|].
    rewrite counts_total_cons, plus_INR. cbn [length]. rewrite S_INR.
    split; [|intros _]; lra.
Qed.

(** X10: a source is reported as suspicious only with more than 5% of the
    requests, so at most 19 sources can be; each is reported with its share,
    which lies in (5, 100]. *)
Theorem suspicious_sources_bounds (source_counts : list (string * nat)) :
  (length (_identify_suspicious_sources source_counts) <= 19)%nat
  /\ forall x, x ∈ _identify_suspicious_sources source_counts ->
       5 < sus_percentage x <= 100
       /\ (sus_source_ip x, sus_request_count x) ∈ source_counts.
Proof.
  unfold _identify_suspicious_sources.
  destruct source_counts as [|p0 sc0] eqn:Hsc;
    [split; [cbn; lia | intros x Hx; inversion Hx]|].
  rewrite <- Hsc. clear Hsc p0 sc0. cbv zeta.
  set (total := INR (counts_total source_counts)).
  set (F := List.filter (λ p, Rgtb (INR (snd p)) (total * 0.05)) source_counts).
  assert (HF : forall p, p ∈ F ->
                 p ∈ source_counts /\ total * 0.05 < INR (snd p)).
  { intros p Hp. unfold F in Hp. apply list_elem_of_In, filter_In in Hp as [Hin Hg].
    split; [apply list_elem_of_In, Hin | apply Rgtb_lt, Hg]. }
  assert (Htot : 0 <= total) by apply pos_INR.
  assert (Hpos : F <> [] -> 0 < total).
  { destruct F as [|p F'] eqn:HFeq; [congruence|]. intros _.
    destruct (HF p ltac:(left)) as [Hin Hgt].
    apply counts_total_elem, le_INR in Hin. fold total in Hin. lra. }
  split.
  - rewrite length_map.
    destruct (decide (F = [])) as [->|Hne]; [cbn; lia|].
    destruct (above_threshold_total (total * 0.05) F) as [_ Hlt];
      [intros p Hp; apply HF, Hp|].
    specialize (Hlt Hne). specialize (Hpos Hne).
    pose proof (counts_total_filter_le
                  (λ p, Rgtb (INR (snd p)) (total * 0.05)) source_counts) as Hle.
    apply le_INR in Hle. fold F total in Hle.
    assert (Hlen : INR (length F) < INR 20).
    { replace (INR 20) with 20 by (cbn; lra). nra. }
    apply INR_lt in Hlen. lia.
  - intros x Hx. apply list_elem_of_fmap in Hx as (p & -> & Hp).
    cbn [sus_percentage sus_source_ip sus_request_count].
    destruct (HF p Hp) as [Hin Hgt].
    assert (Hne : F <> []) by (intros E; rewrite E in Hp; inversion Hp).
    specialize (Hpos Hne).
    pose proof (counts_total_elem _ _ Hin) as Hle. apply le_INR in Hle.
    fold total in Hle.
    split; [|destruct p; exact Hin].
    assert (Hq : 0.05 < INR (snd p) / total <= 1).
    { split.
      - apply Rmult_lt_reg_r with total; [exact Hpos|].
        unfold Rdiv. rewrite Rmult_assoc, Rinv_l by lra. lra.
      - apply Rmult_le_reg_r with total; [exact Hpos|].
        unfold Rdiv. rewrite Rmult_assoc, Rinv_l by lra. lra. }
    lra.
Qed.

(** *** Entropy *)

Lemma plogp_nonpos (p : R) : 0 < p <= 1 -> p * log2 p <= 0.
Proof.
  intros [Hp Hle]. unfold log2.
  assert (ln p <= 0).
  { destruct Hle as [Hlt| ->]; [|rewrite ln_1; lra].
    left. rewrite <- ln_1. apply ln_increasing; assumption. }
  pose proof ln2_pos.
  assert (ln p / ln 2 <= 0).
  { unfold Rdiv. apply Rmult_le_reg_r with (ln 2); [assumption|].
    rewrite Rmult_assoc, Rinv_l by lra. lra. }
  nra.
Qed.

(** X7: when every observation comes from one source the entropy is 0. *)
Theorem entropy_single_source (n : nat) :
  (0 < n)%nat -> _calculate_entropy [INR n] = 0.
Proof.
  intros Hn. apply lt_0_INR in Hn. unfold _calculate_entropy.
  rewrite Rsum_cons, Rsum_nil, Rplus_0_r.
  unfold Reqb. destruct (Req_dec_T (INR n) 0) as [|_]; [lra|].
  cbn [map]. replace (INR n / INR n) with 1 by (field; lra).
  cbn [List.filter]. rewrite Rgtb_true by lra. cbn [map].
  rewrite Rsum_cons, Rsum_nil, log2_1. lra.
Qed.

Lemma entropy_single_source_witness : _calculate_entropy [INR 7] = 0.
Proof. apply entropy_single_source. lia. Defined.

Lemma Rsum_perm (xs ys : list R) : xs ≡ₚ ys -> Rsum xs = Rsum ys.
Proof.
  induction 1; rewrite ?Rsum_cons; lra.
Qed.

Lemma filter_perm {A} (f : A -> bool) (xs ys : list A) :
  xs ≡ₚ ys -> List.filter f xs ≡ₚ List.filter f ys.
Proof.
  induction 1 as [|x xs ys _ IH|x y xs|xs ys zs _ IH1 _ IH2];
    cbn [List.filter].
  - reflexivity.
  - destruct (f x); [constructor|]; exact IH.
  - destruct (f x), (f y); try reflexivity. apply Permutation_swap.
  - etransitivity; eassumption.
Qed.

Lemma entropy_perm (xs ys : list R) :
  xs ≡ₚ ys -> _calculate_entropy xs = _calculate_entropy ys.
Proof.
  intros H. unfold _calculate_entropy.
  destruct xs as [|x xs'] eqn:Hx, ys as [|y ys'] eqn:Hy;
    try (apply Permutation_length in H; discriminate); [reflexivity|].
  rewrite <- Hx, <- Hy in *. clear Hx Hy x xs' y ys'.
  rewrite (Rsum_perm _ _ H). destruct (Reqb (Rsum ys) 0); [reflexivity|].
  cbv zeta. f_equal. apply Rsum_perm, Permutation_map, filter_perm.
  apply Permutation_map, H.
Qed.

Lemma unique_perm (l l' : list string) : l ≡ₚ l' -> unique l ≡ₚ unique l'.
Proof.
  intros H. apply NoDup_Permutation; try apply NoDup_unique.
  intros x. rewrite !elem_of_unique, H. reflexivity.
Qed.

Lemma value_counts_order (l l' : list string) :
  l ≡ₚ l' -> value_counts l ≡ₚ value_counts l'.
Proof.
  intros H. rewrite (value_counts_perm l), (value_counts_perm l').
  rewrite (unique_perm _ _ H).
  replace (map (λ s, (s, count_of s l)) (unique l'))
    with (map (λ s, (s, count_of s l')) (unique l')); [reflexivity|].
  apply map_ext. intros s. f_equal. symmetry. apply count_of_perm, H.
Qed.

(** X9: the source entropy does not depend on the order of the observations. *)
Theorem source_entropy_order_independent (ips ips' : list string) :
  ips ≡ₚ ips' ->
  _calculate_entropy (counts_R (value_counts ips))
  = _calculate_entropy (counts_R (value_counts ips')).
Proof.
  intros H. apply entropy_perm. unfold counts_R.
  apply Permutation_map, value_counts_order, H.
Qed.

Lemma source_entropy_order_independent_witness :
  _calculate_entropy (counts_R (value_counts ["a"; "b"; "a"]))
  = _calculate_entropy (counts_R (value_counts ["a"; "a"; "b"])).
Proof.
  apply source_entropy_order_independent.
  apply perm_skip, Permutation_swap.
Defined.

(** *** What [_calculate_source_metrics] reports *)

Lemma value_counts_nonempty (ips : list string) :
  ips <> [] -> value_counts ips <> [].
Proof.
  intros Hne Hvc. apply (f_equal (@length _)) in Hvc.
  rewrite value_counts_length in Hvc. unfold nunique in Hvc.
  destruct ips as [|a l]; [congruence|]. discriminate.
Qed.

(** X11: for a batch with rows and a source column: the number of distinct
    sources is between 1 and the number of rows, the busiest source has
    between 1 and all of the requests, and the share of the ten busiest
    sources lies in [0, 100] and is 100 when there are at most ten
    sources. *)
Theorem source_metrics_ranges (data : DataFrame) (ips : list string) :
  well_formed data ->
  (0 < len data)%nat ->
  col_source_ip data = Some ips ->
  exists sm,
    _calculate_source_metrics data = Some sm
    /\ unique_source_ips sm = nunique ips
    /\ (1 <= unique_source_ips sm <= len data)%nat
    /\ (1 <= top_source_requests sm <= len data)%nat
    /\ 0 <= top_10_source_percentage sm <= 100
    /\ ((unique_source_ips sm <= 10)%nat ->
        top_10_source_percentage sm = 100).
Proof.
  intros (_ & Hips & _) Hlen Hcol. rewrite Hcol in Hips. cbn in Hips.
  unfold _calculate_source_metrics. rewrite Hcol. cbv zeta.
  eexists. split; [reflexivity|].
  cbn [unique_source_ips top_source_requests top_10_source_percentage].
  pose proof (value_counts_total ips) as Htot.
  pose proof (value_counts_length ips) as Hk.
  assert (Hne : ips <> []) by (intros ->; cbn in Hips; lia).
  pose proof (value_counts_nonempty ips Hne) as Hvne.
  assert (HlenR : 0 < INR (len data)) by (apply lt_0_INR, Hlen).
  split; [exact Hk|]. split.
  { rewrite Hk. unfold nunique. split.
    - destruct ips; [congruence|]. cbn. lia.
    - rewrite <- Hips. clear. induction ips as [|a l IH]; cbn [unique length];
        [lia|]. pose proof (length_filter (λ y, y ≠ a) (unique l)). lia. }
  split.
  { destruct (value_counts ips) as [|top rest] eqn:Hvc; [congruence|].
    assert (Hin : top ∈ value_counts ips) by (rewrite Hvc; left).
    destruct top as [s c]. apply elem_of_value_counts in Hin as [Hs ->].
    cbn [snd]. split; [apply count_of_pos, Hs|].
    rewrite <- Hips. unfold count_of. apply length_filter. }
  pose proof (counts_total_take_le 10 (value_counts ips)) as Htake.
  rewrite Htot, Hips in Htake. apply le_INR in Htake.
  pose proof (pos_INR (counts_total (take 10 (value_counts ips)))) as H0.
  assert (Hq : 0 <= INR (counts_total (take 10 (value_counts ips)))
                    / INR (len data) <= 1).
  { split.
    - apply Rmult_le_pos; [exact H0 | left; apply Rinv_0_lt_compat, HlenR].
    - apply Rmult_le_reg_r with (INR (len data)); [exact HlenR|].
      unfold Rdiv. rewrite Rmult_assoc, Rinv_l by lra. lra. }
  split; [lra|].
  intros Hten. rewrite take_ge by lia. rewrite Htot, Hips.
  field. lra.
Qed.

Lemma source_metrics_ranges_witness :
  exists sm,
    _calculate_source_metrics two_sources = Some sm
    /\ (1 <= unique_source_ips sm <= len two_sources)%nat.
Proof.
  destruct (source_metrics_ranges two_sources ["10.0.0.1"; "10.0.0.2"])
    as (sm & Hsm & _ & Hu & _);
    [repeat split | cbn; lia | reflexivity |].
  exists sm. split; assumption.
Defined.
End SourceFacts.

(** ** [process_traffic_data] as a whole *)

Module ProcessFacts.
Import Real Pandas DoSDataProcessor Spec Vocabulary.
Import RealFacts PandasFacts ValueCountsFacts DoSDataProcessorFacts SourceFacts.
Local Open Scope R_scope.

(** X1: after [process_traffic_data] a non-empty batch has its timestamp column
    as its index and no longer among its columns; a batch without that
    column is left as it was. *)
Theorem process_leaves_timestamp_as_index (now : Z) (B : DataFrame) :
  is_empty B = false ->
  let B' := snd (process_traffic_data now B) in
  col_timestamp B' = None
  /\ col_source_ip B' = col_source_ip B
  /\ col_bytes B' = col_bytes B
  /\ col_others B' = col_others B
  /\ match col_timestamp B with
     | Some ts => df_index B' = DatetimeIndex ts
     | None => B' = B
     end.
Proof.
  intros Hne. cbv zeta. rewrite (process_frame now B Hne).
  unfold set_index_timestamp.
  destruct (col_timestamp B) as [ts|] eqn:Hts; cbn; rewrite ?Hts; auto.
Qed.

Lemma process_leaves_timestamp_as_index_witness :
  col_timestamp (snd (process_traffic_data 0 one_request)) = None.
Proof.
  apply (process_leaves_timestamp_as_index 0 one_request). reflexivity.
Defined.

Lemma set_index_no_timestamp (B : DataFrame) :
  col_timestamp (set_index_timestamp B) = None.
Proof.
  unfold set_index_timestamp.
  destruct (col_timestamp B) eqn:E; [reflexivity | exact E].
Qed.

(** X2: inside [process_traffic_data] the high-volume detection never runs:
    whatever the batch, the report lists no high-volume period. *)
Theorem process_reports_no_high_volume (now : Z) (B : DataFrame)
    (m : Metrics) :
  fst (process_traffic_data now B) = MetricsReport m ->
  high_volume_periods (anomalies m) = [].
Proof.
  intros Hm. destruct (is_empty B) eqn:Hne.
  { unfold process_traffic_data in Hm. rewrite Hne in Hm. discriminate. }
  destruct (process_report now B Hne) as [tm Htm].
  rewrite Htm in Hm. injection Hm as <-. cbn [anomalies].
  unfold _detect_traffic_anomalies.
  destruct (is_empty (set_index_timestamp B)); [reflexivity|].
  rewrite set_index_no_timestamp. reflexivity.
Qed.

Lemma process_reports_no_high_volume_witness :
  exists m, fst (process_traffic_data 0 one_request) = MetricsReport m
            /\ high_volume_periods (anomalies m) = [].
Proof.
  destruct (process_report 0 one_request eq_refl) as [tm Htm].
  eexists. split; [exact Htm|].
  apply (process_reports_no_high_volume 0 one_request _ Htm).
Defined.

(** X3: processing the same batch object twice: the second call finds no
    timestamp column any more, so it reports no time metrics; and when the
    timestamp was the only column, it answers 'No traffic data provided'. *)
Theorem process_twice (now now' : Z) (B : DataFrame) (ts : list Z) :
  well_formed B ->
  is_empty B = false ->
  col_timestamp B = Some ts ->
  let B' := snd (process_traffic_data now B) in
  if (n_columns B =? 1)%nat
  then fst (process_traffic_data now' B')
       = ErrorReport "No traffic data provided"
  else exists m, fst (process_traffic_data now' B') = MetricsReport m
                 /\ time_metrics m = None.
Proof.
  intros Hwf Hne Hts. cbv zeta. rewrite (process_frame now B Hne).
  pose proof (set_index_len B Hwf) as Hlen.
  assert (Hcols : n_columns (set_index_timestamp B) = (n_columns B - 1)%nat).
  { unfold set_index_timestamp, n_columns. rewrite Hts. cbn. lia. }
  assert (Hrows : (len B =? 0)%nat = false).
  { unfold is_empty in Hne. apply orb_false_iff in Hne as [H _]. exact H. }
  destruct (n_columns B =? 1)%nat eqn:H1.
  - apply Nat.eqb_eq in H1. unfold process_traffic_data.
    assert (Hemp : is_empty (set_index_timestamp B) = true).
    { unfold is_empty. rewrite Hcols, H1. apply orb_true_r. }
    rewrite Hemp. reflexivity.
  - apply Nat.eqb_neq in H1.
    assert (Hemp : is_empty (set_index_timestamp B) = false).
    { apply set_index_not_empty; [assumption..|]. right.
      unfold is_empty in Hne. apply orb_false_iff in Hne as [_ Hn].
      apply Nat.eqb_neq in Hn. lia. }
    unfold process_traffic_data. rewrite Hemp.
    rewrite set_index_no_timestamp.
    unfold _calculate_time_metrics. rewrite set_index_no_timestamp.
    cbn. eexists. split; reflexivity.
Qed.

Lemma process_twice_witness :
  exists m,
    fst (process_traffic_data 1 (snd (process_traffic_data 0 one_request)))
    = MetricsReport m
    /\ time_metrics m = None.
Proof.
  apply (process_twice 0 1 one_request [0%Z]);
    [repeat split | reflexivity | reflexivity].
Defined.

(** X4: a non-empty batch with at most four distinct sources is always flagged
    as concentrated: its busiest source has at least a quarter of the
    requests. *)
Theorem few_sources_are_concentrated (now : Z) (B : DataFrame)
    (ips : list string) :
  well_formed B ->
  is_empty B = false ->
  col_source_ip B = Some ips ->
  (nunique ips <= 4)%nat ->
  exists m, fst (process_traffic_data now B) = MetricsReport m
            /\ source_concentration (anomalies m) = true.
Proof.
  intros Hwf Hne Hips Hfew.
  destruct (process_report now B Hne) as [tm Htm].
  eexists. split; [exact Htm|]. cbn [anomalies].
  assert (Hcol : col_timestamp B = None \/ (1 < n_columns B)%nat).
  { destruct (col_timestamp B) eqn:Hts; [right | left; reflexivity].
    unfold n_columns. rewrite Hts, Hips. cbn. lia. }
  unfold _detect_traffic_anomalies.
  rewrite (set_index_not_empty B Hwf Hne Hcol).
  cbn [source_concentration]. rewrite set_index_source, Hips.
  rewrite (set_index_len B Hwf).
  destruct Hwf as (_ & Hlen & _). rewrite Hips in Hlen. cbn in Hlen.
  assert (Hrows : (0 < len B)%nat).
  { unfold is_empty in Hne. apply orb_false_iff in Hne as [H _].
    apply Nat.eqb_neq in H. lia. }
  assert (Hne' : ips <> []) by (intros ->; cbn in Hlen; lia).
  pose proof (value_counts_nonempty ips Hne') as Hvne.
  destruct (value_counts ips) as [|top rest] eqn:Hvc; [congruence|].
  apply Rgtb_true.
  pose proof (counts_total_le_max (value_counts ips) (snd top)
                (value_counts_head_max ips top rest Hvc)) as Hmax.
  rewrite value_counts_total, value_counts_length, Hlen in Hmax.
  assert (Hn : (len B <= 4 * snd top)%nat) by nia.
  apply le_INR in Hn. rewrite mult_INR in Hn.
  replace (INR 4) with 4 in Hn by (cbn; lra).
  apply lt_0_INR in Hrows.
  assert (Hq : / 4 <= INR (snd top) / INR (len B)).
  { apply Rmult_le_reg_r with (INR (len B)); [exact Hrows|].
    unfold Rdiv. rewrite Rmult_assoc, Rinv_l by lra. lra. }
  lra.
Qed.

Lemma few_sources_are_concentrated_witness :
  exists m, fst (process_traffic_data 0 two_sources) = MetricsReport m
            /\ source_concentration (anomalies m) = true.
Proof.
  apply (few_sources_are_concentrated 0 two_sources ["10.0.0.1"; "10.0.0.2"]);
    [repeat split | reflexivity | reflexivity | vm_compute; lia].
Defined.
End ProcessFacts.

(** ** Minute windows *)

Module ResampleFacts.
Import Real Pandas DoSDataProcessor Spec Vocabulary.
Import RealFacts PandasFacts.
Local Open Scope Z_scope.

Lemma fold_min_scale (a : Z) (ms : list Z) :
  fold_right Z.min (60 * a) (map (λ m, 60 * m) ms)
  = 60 * fold_right Z.min a ms.
Proof. induction ms as [|m ms IH]; cbn; [reflexivity|]. rewrite IH. lia. Qed.

Lemma fold_max_scale (a : Z) (ms : list Z) :
  fold_right Z.max (60 * a) (map (λ m, 60 * m) ms)
  = 60 * fold_right Z.max a ms.
Proof. induction ms as [|m ms IH]; cbn; [reflexivity|]. rewrite IH. lia. Qed.

Lemma fold_min_le (a : Z) (ms : list Z) (x : Z) :
  x ∈ a :: ms -> fold_right Z.min a ms <= x.
Proof.
  induction ms as [|m ms IH]; cbn; intros H.
  - apply list_elem_of_singleton in H. lia.
  - rewrite !elem_of_cons in H. rewrite elem_of_cons in IH.
    destruct H as [->|[->|H]]; [specialize (IH ltac:(auto)) | | specialize (IH ltac:(auto))]; lia.
Qed.

Lemma fold_max_ge (a : Z) (ms : list Z) (x : Z) :
  x ∈ a :: ms -> x <= fold_right Z.max a ms.
Proof.
  induction ms as [|m ms IH]; cbn; intros H.
  - apply list_elem_of_singleton in H. lia.
  - rewrite !elem_of_cons in H. rewrite elem_of_cons in IH.
    destruct H as [->|[->|H]]; [specialize (IH ltac:(auto)) | | specialize (IH ltac:(auto))]; lia.
Qed.

(** The bins, by the number of their minute. *)
Lemma resample_bins_minutes (t : Z) (r : list Z) :
  let lo := fold_right Z.min (t / 60) (map (λ x, x / 60) r) in
  let hi := fold_right Z.max (t / 60) (map (λ x, x / 60) r) in
  resample_bins (t :: r)
  = map (λ k, 60 * (lo + Z.of_nat k)) (seq 0 (S (Z.to_nat (hi - lo)))).
Proof.
  cbv zeta. unfold resample_bins, floor_minute.
  rewrite <- (map_map (λ x, x / 60) (λ m, 60 * m)).
  rewrite fold_min_scale, fold_max_scale.
  set (lo := fold_right Z.min _ _). set (hi := fold_right Z.max _ _).
  replace ((60 * hi - 60 * lo) / 60) with (hi - lo)
    by (rewrite <- Z.mul_sub_distr_l, Z.mul_comm, Z.div_mul; lia).
  apply map_ext. intros k. lia.
Qed.

Lemma elem_of_resample_bins (ts : list Z) (x : Z) :
  x ∈ ts -> floor_minute x ∈ resample_bins ts.
Proof.
  destruct ts as [|t r]; [intros H; inversion H|]. intros Hx.
  rewrite resample_bins_minutes. cbv zeta.
  set (lo := fold_right Z.min _ _). set (hi := fold_right Z.max _ _).
  assert (Hm : x / 60 ∈ t / 60 :: map (λ x, x / 60) r).
  { change (x / 60 ∈ map (λ x, x / 60) (t :: r)).
    apply list_elem_of_fmap. exists x. auto. }
  pose proof (fold_min_le _ _ _ Hm) as Hlo.
  pose proof (fold_max_ge _ _ _ Hm) as Hhi. fold lo in Hlo. fold hi in Hhi.
  apply list_elem_of_fmap. exists (Z.to_nat (x / 60 - lo)). split.
  - unfold floor_minute. f_equal. lia.
  - apply list_elem_of_In, in_seq. lia.
Qed.

Lemma NoDup_resample_bins (ts : list Z) : NoDup (resample_bins ts).
Proof.
  destruct ts as [|t r]; [constructor|].
  rewrite resample_bins_minutes. cbv zeta.
  apply NoDup_fmap_2; [intros j k H; lia | apply NoDup_ListNoDup, seq_NoDup].
Qed.

Lemma resample_bins_length (t : Z) (r : list Z) :
  length (resample_bins (t :: r))
  = S (Z.to_nat (fold_right Z.max (t / 60) (map (λ x, x / 60) r)
                 - fold_right Z.min (t / 60) (map (λ x, x / 60) r))).
Proof.
  rewrite resample_bins_minutes. cbv zeta. rewrite length_map, length_seq.
  reflexivity.
Qed.

(** Counting by label: over duplicate-free labels, the counts add up to the
    number of cells that carry one of the labels. *)
Lemma count_by_label (labels : list Z) (ts : list Z) :
  NoDup labels ->
  foldr Nat.add 0%nat
    (map (λ b, length (filter (λ t, floor_minute t = b) ts)) labels)
  = length (filter (λ t, floor_minute t ∈ labels) ts).
Proof.
  induction 1 as [|b labels Hb Hnd IH]; cbn [map foldr].
  - induction ts as [|t ts IHts]; [reflexivity|].
    rewrite filter_cons_False by (intros H; inversion H). exact IHts.
  - rewrite IH. clear IH.
    induction ts as [|t ts IHts]; [reflexivity|].
    rewrite !filter_cons.
    destruct (decide (floor_minute t = b)) as [E|E].
    + rewrite decide_False by (rewrite E; exact Hb).
      rewrite decide_True by (rewrite E; left). cbn [length]. lia.
    + destruct (decide (floor_minute t ∈ labels)) as [Hin|Hnin].
      * rewrite decide_True by (right; exact Hin). cbn [length]. lia.
      * rewrite decide_False; [exact IHts|].
        rewrite elem_of_cons. intros [?|?]; contradiction.
Qed.

(** Every observation is counted in exactly one window. *)
Lemma resample_size_total (ts : list Z) :
  foldr Nat.add 0%nat (map snd (resample_size ts)) = length ts.
Proof.
  unfold resample_size. rewrite map_map. cbn [snd].
  rewrite count_by_label by apply NoDup_resample_bins.
  f_equal. apply filter_all, Forall_forall.
  intros x Hx. apply elem_of_resample_bins, Hx.
Qed.

Lemma series_at_map {V} (f : Z -> V) (labels : list Z) (b : Z) :
  b ∈ labels -> series_at (map (λ k, (k, f k)) labels) b = Some (f b).
Proof.
  induction labels as [|k labels IH]; intros H; [inversion H|].
  cbn [map series_at]. destruct (decide (k = b)) as [->|Hne]; [reflexivity|].
  apply IH. apply elem_of_cons in H as [->|H]; [congruence | exact H].
Qed.

(** The window of an observation is in the series, with the number of
    observations of that minute. *)
Lemma resample_size_at (ts : list Z) (x : Z) :
  x ∈ ts ->
  series_at (resample_size ts) (floor_minute x)
  = Some (length (filter (λ t, floor_minute t = floor_minute x) ts)).
Proof.
  intros Hx. unfold resample_size.
  apply (series_at_map
           (λ b, length (filter (λ t, floor_minute t = b) ts))).
  apply elem_of_resample_bins, Hx.
Qed.
End ResampleFacts.

(** ** Time metrics and high-volume periods *)

Module TimeFacts.
Import Real Pandas DoSDataProcessor Spec Vocabulary.
Import RealFacts PandasFacts ResampleFacts.
Local Open Scope R_scope.

Lemma Rsum_INR (l : list nat) :
  Rsum (map INR l) = INR (foldr Nat.add 0%nat l).
Proof.
  induction l as [|n l IH]; [reflexivity|].
  cbn [map foldr]. rewrite Rsum_cons, IH, plus_INR. reflexivity.
Qed.

(** X12: for a batch with a timestamp column and at least one row, the reported
    duration is the number of minute windows (at least one) and the average
    requests per minute is the number of rows divided by that duration; when
    all rows fall in one minute, the standard deviation and the variability
    are NaN. *)
Theorem time_metrics_average (data : DataFrame) (ts : list Z) :
  col_timestamp data = Some ts ->
  ts <> [] ->
  exists tm,
    fst (_calculate_time_metrics data) = Some tm
    /\ total_duration_minutes tm = length (resample_bins ts)
    /\ (1 <= total_duration_minutes tm)%nat
    /\ avg_requests_per_minute tm
       = Some (INR (length ts) / INR (total_duration_minutes tm))
    /\ (total_duration_minutes tm = 1%nat ->
        std_requests_per_minute tm = None /\ traffic_variability tm = None).
Proof.
  intros Hts Hne. unfold _calculate_time_metrics. rewrite Hts.
  unfold set_index_timestamp. rewrite Hts.
  cbn [fst df_index index_instants col_bytes]. cbv zeta.
  eexists. split; [reflexivity|].
  cbn [total_duration_minutes avg_requests_per_minute
       std_requests_per_minute traffic_variability].
  set (rpm := map (λ p : Z * nat, INR (snd p)) (resample_size ts)).
  assert (Hlen : length rpm = length (resample_bins ts)).
  { unfold rpm, resample_size. rewrite !length_map. reflexivity. }
  assert (Hpos : (1 <= length (resample_bins ts))%nat).
  { destruct ts as [|t r]; [congruence|]. rewrite resample_bins_length. lia. }
  assert (Hsum : Rsum rpm = INR (length ts)).
  { unfold rpm. rewrite <- (map_map snd INR), Rsum_INR, resample_size_total.
    reflexivity. }
  split; [exact Hlen|]. split; [lia|]. split.
  - destruct rpm as [|x xs] eqn:Hrpm; [cbn in Hlen; lia|].
    rewrite <- Hrpm in *. unfold stat_or_zero, series_mean. rewrite Hrpm.
    rewrite <- Hrpm, Hsum. reflexivity.
  - intros H1. rewrite H1 in Hlen.
    destruct rpm as [|x [|y xs]] eqn:Hrpm; try discriminate.
    cbn [stat_or_zero series_std series_mean].
    split; [reflexivity|].
    rewrite Rsum_cons, Rsum_nil in Hsum.
    assert (0 < INR (length ts)).
    { apply lt_0_INR. destruct ts; [congruence | cbn; lia]. }
    rewrite Rgtb_true; [reflexivity|].
    cbn [length INR]. rewrite Rsum_cons, Rsum_nil. lra.
Qed.

Lemma time_metrics_average_witness :
  exists tm,
    fst (_calculate_time_metrics one_request) = Some tm
    /\ total_duration_minutes tm = length (resample_bins [0%Z]).
Proof.
  destruct (time_metrics_average one_request [0%Z] eq_refl)
    as (tm & H1 & H2 & _); [discriminate|].
  exists tm. split; assumption.
Defined.

(** *** Three-sigma windows are rare *)

Lemma sum_above (g : R -> R) (th : R) (xs : list R) :
  (forall x, x ∈ xs -> th < g x) ->
  INR (length xs) * th <= Rsum (map g xs)
  /\ (xs <> [] -> INR (length xs) * th < Rsum (map g xs)).
Proof.
  induction xs as [|x xs IH]; intros H.
  - cbn [map length INR]. rewrite Rsum_nil. split; [lra | congruence].
  - assert (Hx : th < g x) by (apply H; left).
    destruct IH as [IH _]; [intros y Hy; apply H; right; exact Hy|].
    cbn [map length]. rewrite Rsum_cons, S_INR. split; [|intros _]; lra.
Qed.

Lemma sum_filter_le (g : R -> R) (f : R -> bool) (xs : list R) :
  (forall x, 0 <= g x) ->
  Rsum (map g (List.filter f xs)) <= Rsum (map g xs).
Proof.
  intros Hg. induction xs as [|x xs IH]; cbn [List.filter map]; [lra|].
  pose proof (Hg x). destruct (f x); cbn [map]; rewrite ?Rsum_cons; lra.
Qed.

(** At most one window in nine, the mean's own degree of freedom apart,
    can lie more than three sample deviations above the mean. *)
Lemma three_sigma_count (xs : list R) (m s : R) :
  series_mean xs = Some m ->
  series_std xs = Some s ->
  9 * INR (length (List.filter (λ x, Rgtb x (m + 3 * s)) xs))
  <= INR (length xs) - 1.
Proof.
  intros Hm Hs.
  set (H := List.filter (λ x, Rgtb x (m + 3 * s)) xs).
  set (g := λ x : R, (x - m) * (x - m)).
  assert (Hg : forall x, 0 <= g x)
    by (intros x; unfold g; cbv beta; apply Rle_0_sqr).
  assert (Hmean : m = Rsum xs / INR (length xs)).
  { destruct xs; [discriminate|]. cbn [series_mean] in Hm. congruence. }
  set (V := Rsum (map g xs)).
  assert (HN : 1 <= INR (length xs) - 1).
  { destruct xs as [|a [|b l]]; try discriminate.
    cbn [length]. rewrite !S_INR. pose proof (pos_INR (length l)). lra. }
  assert (HV : 0 <= V).
  { apply Rsum_nonneg. rewrite Forall_fmap. apply Forall_forall.
    intros; apply Hg. }
  assert (Hstd : s = R_sqrt.sqrt (V / (INR (length xs) - 1))).
  { unfold V, g. rewrite Hmean. clear -Hs.
    destruct xs as [|a [|b l]]; try discriminate.
    cbn [series_std] in Hs. injection Hs as <-. reflexivity. }
  assert (Hq : 0 <= V / (INR (length xs) - 1)).
  { apply Rmult_le_pos; [exact HV | left; apply Rinv_0_lt_compat; lra]. }
  assert (Hs0 : 0 <= s) by (rewrite Hstd; apply sqrt_pos).
  assert (Hss : s * s = V / (INR (length xs) - 1))
    by (rewrite Hstd; apply sqrt_sqrt, Hq).
  assert (HVs : V = s * s * (INR (length xs) - 1)).
  { rewrite Hss. field. lra. }
  assert (Habove : forall x, x ∈ H -> 9 * (s * s) < g x).
  { intros x Hx. unfold H in Hx.
    apply list_elem_of_In, filter_In in Hx as [_ Hx]. apply Rgtb_lt in Hx.
    unfold g. cbv beta. nra. }
  destruct (sum_above g (9 * (s * s)) H Habove) as [Hle Hlt].
  pose proof (sum_filter_le g (λ x, Rgtb x (m + 3 * s)) xs Hg) as Hsub.
  fold H V in Hsub.
  destruct (decide (H = [])) as [E|Hne]; [rewrite E; cbn; lra|].
  specialize (Hlt Hne).
  assert (Hspos : 0 < s * s).
  { destruct (Rle_lt_or_eq_dec 0 (s * s)) as [?|E]; [nra | assumption |].
    assert (HV0 : V = 0) by (rewrite HVs, <- E; ring).
    assert (Hl0 : INR (length H) * (9 * (s * s)) = 0) by (rewrite <- E; ring).
    lra. }
  apply Rmult_le_reg_r with (s * s); [exact Hspos|]. nra.
Qed.

(** X13: called on a batch with a timestamp column, [_detect_traffic_anomalies]
    flags at most one minute window in nine: nine times the number of
    high-volume periods is below the number of windows. Every period it
    lists has a request count above its threshold. *)
Theorem high_volume_periods_are_rare (data : DataFrame) (ts : list Z) :
  col_timestamp data = Some ts ->
  let a := _detect_traffic_anomalies data in
  (9 * length (high_volume_periods a) <= length (resample_bins ts) - 1)%nat
  /\ forall p, p ∈ high_volume_periods a ->
       hv_threshold p < INR (hv_request_count p).
Proof.
  intros Hts. cbv zeta. unfold _detect_traffic_anomalies.
  destruct (is_empty data);
    [cbn; split; [lia | intros p Hp; inversion Hp]|].
  cbn [high_volume_periods]. rewrite Hts.
  unfold set_index_timestamp. rewrite Hts.
  cbn [df_index index_instants]. cbv zeta.
  set (mc := resample_size ts).
  set (counts := map (λ p : Z * nat, INR (snd p)) mc).
  destruct (series_mean counts) as [m|] eqn:Hm;
    [|cbn; split; [lia | intros p Hp; inversion Hp]].
  destruct (series_std counts) as [s|] eqn:Hs;
    [|cbn; split; [lia | intros p Hp; inversion Hp]].
  split.
  - pose proof (three_sigma_count counts m s Hm Hs) as Hb.
    rewrite length_map.
    assert (Hfl : length (List.filter (λ p : Z * nat,
                            Rgtb (INR (snd p)) (m + 3 * s)) mc)
                  = length (List.filter (λ x, Rgtb x (m + 3 * s)) counts)).
    { unfold counts. clear. induction mc as [|p mc IH]; [reflexivity|].
      cbn [map List.filter]. destruct (Rgtb _ _); cbn [length]; lia. }
    rewrite Hfl.
    assert (Hlen : length counts = length (resample_bins ts)).
    { unfold counts, mc, resample_size. rewrite !length_map. reflexivity. }
    rewrite Hlen in Hb.
    set (k := length (List.filter _ counts)) in *.
    set (N := length (resample_bins ts)) in *.
    assert (HNpos : (1 <= N)%nat).
    { destruct (le_lt_dec 1 N) as [?|Hlt]; [assumption|].
      assert (N = 0)%nat by lia.
      assert (E : INR N = 0) by (replace N with 0%nat; reflexivity).
      rewrite E in Hb. pose proof (pos_INR k). lra. }
    assert (Hr : INR (9 * k) <= INR (N - 1)).
    { rewrite mult_INR, minus_INR by lia.
      replace (INR 9) with 9 by (cbn; lra). cbn [INR]. lra. }
    apply INR_le in Hr. exact Hr.
  - intros p Hp. apply list_elem_of_fmap in Hp as (q & -> & Hq).
    cbn [hv_threshold hv_request_count].
    apply list_elem_of_In, filter_In in Hq as [_ Hq]. apply Rgtb_lt, Hq.
Qed.

Lemma high_volume_periods_are_rare_witness :
  (9 * length (high_volume_periods (_detect_traffic_anomalies one_request))
   <= length (resample_bins [0%Z]) - 1)%nat.
Proof. apply (high_volume_periods_are_rare one_request [0%Z]). reflexivity. Defined.
End TimeFacts.

(** ** More on [extract_traffic_features] *)

Module FeatureValueFacts.
Import Real Pandas DoSDataProcessor Features Spec Vocabulary.
Import RealFacts PandasFacts ValueCountsFacts ResampleFacts SourceFacts.
Local Open Scope R_scope.

(** X14: [extract_traffic_features] leaves the caller's batch as it was: the
    re-indexing is done on a copy. *)
Theorem extract_leaves_batch (B : DataFrame) :
  snd (extract_traffic_features B) = B.
Proof.
  unfold extract_traffic_features.
  destruct (is_empty B); [reflexivity|]. cbn [snd].
  destruct B as [idx ts ips b others]. cbn.
  destruct ts; reflexivity.
Qed.

Lemma extract_frame (B : DataFrame) :
  is_empty B = false ->
  forall D, D = match col_timestamp B with
                | Some ts => assign_timestamp B (to_datetime ts)
                | None => B
                end -> D = B.
Proof.
  intros _ D ->. destruct B as [idx ts ips b others]. cbn.
  destruct ts; reflexivity.
Qed.

(** X15: for every observation with an instant, the requests-per-minute feature
    is a number, never NaN: the number of observations of the batch that
    fall in the same minute, the observation itself included. *)
Theorem requests_per_minute_counts (B : DataFrame) (ts : list Z)
    (i : nat) (t : Z) :
  is_empty B = false ->
  col_timestamp B = Some ts ->
  ts !! i = Some t ->
  exists c : nat,
    cell (requests_per_minute (fst (extract_traffic_features B))) i
    = Some (Some c)
    /\ c = length (filter (λ u, floor_minute u = floor_minute t) ts)
    /\ (1 <= c)%nat.
Proof.
  intros Hne Hts Hi. unfold extract_traffic_features. rewrite Hne.
  cbn [fst]. rewrite (extract_frame B Hne _ eq_refl).
  cbn [requests_per_minute]. rewrite Hts. cbn [mbind option_bind fmap option_fmap option_map].
  unfold set_index_timestamp. rewrite Hts. cbn [df_index index_instants].
  unfold cell. cbn [mbind option_bind].
  rewrite !list_lookup_fmap, Hi. cbn [fmap option_fmap option_map].
  assert (Hin : t ∈ ts) by (eapply list_elem_of_lookup_2; exact Hi).
  rewrite (resample_size_at ts t Hin).
  eexists. split; [reflexivity|]. split; [reflexivity|].
  assert (Hf : t ∈ filter (λ u, floor_minute u = floor_minute t) ts)
    by (apply list_elem_of_filter; auto).
  destruct (filter _ ts); [inversion Hf | cbn; lia].
Qed.

Lemma requests_per_minute_counts_witness :
  exists c : nat,
    cell (requests_per_minute (fst (extract_traffic_features one_request))) 0
    = Some (Some c)
    /\ c = length (filter (λ u, floor_minute u = floor_minute 0) [0%Z])
    /\ (1 <= c)%nat.
Proof.
  apply (requests_per_minute_counts one_request [0%Z] 0 0%Z);
    reflexivity.
Defined.

(** X16: for every observation with a source, the source-frequency feature is
    the number of observations of the batch with that source (at least 1),
    and its entropy contribution [-p log2 p] is not negative. *)
Theorem source_features (B : DataFrame) (ips : list string)
    (i : nat) (ip : string) :
  well_formed B ->
  is_empty B = false ->
  col_source_ip B = Some ips ->
  ips !! i = Some ip ->
  let F := fst (extract_traffic_features B) in
  cell (source_ip_frequency F) i = Some (Some (count_of ip ips))
  /\ (1 <= count_of ip ips)%nat
  /\ exists e, cell (source_ip_entropy F) i = Some e /\ 0 <= e.
Proof.
  intros (_ & Hlen & _) Hne Hips Hi. cbv zeta.
  rewrite Hips in Hlen. cbn in Hlen.
  unfold extract_traffic_features. rewrite Hne.
  cbn [fst]. rewrite (extract_frame B Hne _ eq_refl).
  cbn [source_ip_frequency source_ip_entropy]. rewrite Hips.
  cbn [fmap option_fmap option_map mbind option_bind]. unfold cell.
  cbn [mbind option_bind]. rewrite !list_lookup_fmap, Hi.
  cbn [fmap option_fmap option_map].
  assert (Hin : ip ∈ ips) by (eapply list_elem_of_lookup_2; exact Hi).
  rewrite (counts_at_value_counts ips ip Hin). cbn [default].
  pose proof (count_of_pos ip ips Hin) as Hpos.
  split; [reflexivity|]. split; [exact Hpos|].
  eexists. split; [reflexivity|].
  assert (Hle : (count_of ip ips <= len B)%nat).
  { rewrite <- Hlen. unfold count_of. apply length_filter. }
  assert (Hn : 0 < INR (len B)) by (apply lt_0_INR; lia).
  apply lt_0_INR in Hpos. apply le_INR in Hle.
  assert (Hp : 0 < INR (count_of ip ips) / INR (len B) <= 1).
  { split.
    - apply Rdiv_lt_0_compat; assumption.
    - apply Rmult_le_reg_r with (INR (len B)); [exact Hn|].
      unfold Rdiv. rewrite Rmult_assoc, Rinv_l by lra. lra. }
  rewrite Rgtb_true by apply Hp.
  pose proof (plogp_nonpos _ Hp) as Hnp.
  rewrite <- Ropp_mult_distr_l. unfold id.
  apply Ropp_0_ge_le_contravar, Rle_ge, Hnp.
Qed.

Lemma source_features_witness :
  cell (source_ip_frequency (fst (extract_traffic_features two_sources))) 0
  = Some (Some (count_of "10.0.0.1" ["10.0.0.1"; "10.0.0.2"])).
Proof.
  apply (source_features two_sources ["10.0.0.1"; "10.0.0.2"] 0 "10.0.0.1");
    [repeat split | reflexivity | reflexivity | reflexivity].
Defined.

End FeatureValueFacts.

(** ** Scanning the whole catalog *)

Module ScanFacts.
Import Pandas Binary64 Binary64Facts AttackPatternAnalyzer Spec.
Import AttackPatternAnalyzerFacts.
Local Open Scope float_scope.

Lemma possible_confidences_in_unit :
  forallb (λ c, (0 <=? c) && (c <=? 1)) possible_confidences = true.
Proof. vm_compute. reflexivity. Qed.

(** X18: the confidence of every pattern match is a number between 0 and 1
    (never NaN, never negative). *)
Theorem confidence_in_unit_interval (data : DataFrame) (name : string) :
  let c := confidence (_analyze_specific_pattern data name) in
  (0 <=? c) = true /\ (c <=? 1) = true.
Proof.
  cbv zeta. pose proof possible_confidences_in_unit as Hall.
  rewrite forallb_forall in Hall.
  specialize (Hall _ (confidence_cases data name)).
  apply andb_prop in Hall. exact Hall.
Qed.

(** X19: a scan of the whole catalog reports only catalog patterns whose
    confidence is above 0.3, each at most once and in catalog order. *)
Theorem scan_reports_catalog_matches (data : DataFrame) :
  let found := detected_patterns (analyze_attack_pattern data None) in
  map pattern_name found `sublist_of` keys known_patterns
  /\ forall m, m ∈ found ->
       (0.3 <? confidence m) = true
       /\ m = _analyze_specific_pattern data (pattern_name m).
Proof.
  cbv zeta. unfold analyze_attack_pattern.
  destruct (is_empty data);
    [cbn; split; [apply sublist_nil_l | intros m Hm; inversion Hm]|].
  cbn [detected_patterns]. split.
  - assert (Hnames : forall names,
      map pattern_name
        (List.filter (λ r, 0.3 <? confidence r)
           (map (_analyze_specific_pattern data) names))
      `sublist_of` names).
    { induction names as [|n names IH]; [constructor|].
      cbn [map List.filter].
      assert (Hn : pattern_name (_analyze_specific_pattern data n) = n).
      { unfold _analyze_specific_pattern.
        destruct (get known_patterns n); [|reflexivity].
        destruct (is_empty data); reflexivity. }
      destruct (0.3 <? _); cbn [map]; [rewrite Hn|];
        constructor; exact IH. }
    apply Hnames.
  - intros m Hm. apply list_elem_of_In, filter_In in Hm as [Hin Hc].
    split; [exact Hc|].
    apply in_map_iff in Hin as (n & <- & _).
    f_equal. unfold _analyze_specific_pattern.
    destruct (get known_patterns n); [|reflexivity].
    destruct (is_empty data); reflexivity.
Qed.

(** X20: any non-empty batch with a source column is reported as a UDP flood by
    a scan: whatever the traffic, that match has a confidence of at least
    0.4, above the 0.3 that the scan retains. *)
Theorem scan_always_finds_udp_flood (data : DataFrame) (ips : list string) :
  is_empty data = false ->
  col_source_ip data = Some ips ->
  exists m,
    m ∈ detected_patterns (analyze_attack_pattern data None)
    /\ pattern_name m = "udp_flood"
    /\ (0.4 <=? confidence m) = true.
Proof.
  intros Hne Hips.
  exists (_analyze_specific_pattern data "udp_flood").
  assert (Hc : pattern_name (_analyze_specific_pattern data "udp_flood")
               = "udp_flood"
               /\ (0.4 <=? confidence (_analyze_specific_pattern data "udp_flood"))
                  = true
               /\ (0.3 <? confidence (_analyze_specific_pattern data "udp_flood"))
                  = true).
  { unfold _analyze_specific_pattern.
    change (get known_patterns "udp_flood")
      with (Some (mkPattern "UDP flood attack pattern"
         [("high_udp_volume", true); ("random_ports", true);
          ("small_packet_sizes", true)]
         ["udp_packet_rate > normal_rate * 5";
          "port_distribution_entropy > threshold"])).
    cbv beta iota. rewrite Hne.
    rewrite decide_False by discriminate. rewrite decide_True by reflexivity.
    unfold _analyze_udp_flood_pattern. rewrite Hips. cbv zeta.
    destruct (500 <? len data)%nat, (100 <? nunique ips)%nat;
      vm_compute; repeat split. }
  destruct Hc as (Hn & Hge & Hgt).
  split; [|split; assumption].
  unfold analyze_attack_pattern. rewrite Hne. cbn [detected_patterns].
  apply list_elem_of_In, filter_In. split; [|exact Hgt].
  apply in_map. vm_compute. auto.
Qed.

Lemma scan_always_finds_udp_flood_witness :
  exists m,
    m ∈ detected_patterns (analyze_attack_pattern two_sources None)
    /\ pattern_name m = "udp_flood"
    /\ (0.4 <=? confidence m) = true.
Proof.
  apply (scan_always_finds_udp_flood two_sources ["10.0.0.1"; "10.0.0.2"]);
    reflexivity.
Defined.

(** X21: a scan of a batch of at most 500 rows that has neither a source column
    nor a bytes column detects nothing and gives the single recommendation
    to continue normal monitoring. *)
Theorem scan_of_quiet_batch (data : DataFrame) :
  is_empty data = false ->
  (len data <= 500)%nat ->
  col_source_ip data = None ->
  col_bytes data = None ->
  analyze_attack_pattern data None
  = mkResults [] ∅
      ["No specific attack patterns detected - continue normal monitoring"]
      ∅.
Proof.
  intros Hne Hlen Hips Hb. unfold analyze_attack_pattern. rewrite Hne.
  assert (Hscan :
    List.filter (λ r, 0.3 <? confidence r)
      (map (_analyze_specific_pattern data) (keys known_patterns)) = []).
  { unfold keys, known_patterns, _load_known_patterns. cbn [map fst].
    unfold _analyze_specific_pattern, known_patterns, _load_known_patterns.
    cbn [get]. rewrite Hne.
    rewrite ?decide_True by reflexivity;
    rewrite ?decide_False by discriminate;
    rewrite ?decide_True by reflexivity.
    cbv beta iota.
    rewrite ?decide_True by reflexivity;
    rewrite ?decide_False by discriminate;
    rewrite ?decide_True by reflexivity.
    unfold _analyze_syn_flood_pattern, _analyze_udp_flood_pattern,
      _analyze_http_flood_pattern, _analyze_amplification_pattern.
    rewrite Hips, Hb.
    assert (H1 : (1000 <? len data)%nat = false) by (apply Nat.ltb_ge; lia).
    assert (H2 : (500 <? len data)%nat = false) by (apply Nat.ltb_ge; lia).
    assert (H3 : (2000 <? len data)%nat = false) by (apply Nat.ltb_ge; lia).
    assert (H4 : (800 <? len data)%nat = false) by (apply Nat.ltb_ge; lia).
    rewrite H1, H2, H3, H4. vm_compute. reflexivity. }
  rewrite Hscan. reflexivity.
Qed.

Lemma scan_of_quiet_batch_witness :
  analyze_attack_pattern unlabelled None
  = mkResults [] ∅
      ["No specific attack patterns detected - continue normal monitoring"]
      ∅.
Proof.
  apply scan_of_quiet_batch; [reflexivity | cbn; lia | reflexivity..].
Defined.

(** X22: the HTTP-flood match of a batch of more than 2000 rows has a confidence
    of exactly 0.8, and its tier is "medium": the boundary case of the tier
    rule does occur. *)
Theorem http_flood_at_the_boundary (data : DataFrame) :
  is_empty data = false ->
  (2000 < len data)%nat ->
  let r := _analyze_specific_pattern data "http_flood" in
  confidence r = 0.8 /\ severity r = "medium".
Proof.
  intros Hne Hlen. cbv zeta. unfold _analyze_specific_pattern.
  change (get known_patterns "http_flood")
    with (Some (mkPattern "HTTP flood attack pattern"
         [("high_request_rate", true); ("similar_user_agents", true);
          ("repetitive_requests", true)]
         ["http_request_rate > normal_rate * 3";
          "user_agent_diversity < threshold"])).
  cbv beta iota. rewrite Hne.
  rewrite !decide_False by discriminate. rewrite decide_True by reflexivity.
  unfold _analyze_http_flood_pattern.
  apply Nat.ltb_lt in Hlen. rewrite Hlen.
  vm_compute. split; reflexivity.
Qed.

Lemma http_flood_at_the_boundary_witness :
  confidence (_analyze_specific_pattern large_batch "http_flood") = 0.8.
Proof.
  apply (http_flood_at_the_boundary large_batch);
    [reflexivity | apply Nat.ltb_lt; vm_compute; reflexivity].
Defined.

(** *** Recommendations *)

Lemma elem_of_recommendations (detected : list PatternMatch)
    (m0 : PatternMatch) (r : string) :
  detected = m0 :: tl detected ->
  let names := map pattern_name
                 (List.filter (λ p, 0.5 <? confidence p) detected) in
  r ∈ _generate_recommendations detected
  <-> r ∈ (if bool_decide ("syn_flood" ∈ names)
           then [ "Enable SYN cookies on servers";
                  "Configure SYN flood protection on firewalls";
                  "Implement connection rate limiting" ] else [])
      \/ r ∈ (if bool_decide ("udp_flood" ∈ names)
              then [ "Implement UDP rate limiting";
                     "Configure ingress filtering";
                     "Enable UDP flood protection" ] else [])
      \/ r ∈ (if bool_decide ("http_flood" ∈ names)
              then [ "Enable HTTP request rate limiting";
                     "Deploy Web Application Firewall (WAF)";
                     "Implement CAPTCHA challenges for suspicious sources" ]
              else [])
      \/ r ∈ (if bool_decide ("amplification" ∈ names)
              then [ "Implement BCP38 ingress filtering";
                     "Configure response rate limiting on public services";
                     "Monitor for source IP spoofing" ] else [])
      \/ r ∈ general_recommendations.
Proof.
  intros Hd. cbv zeta. unfold _generate_recommendations.
  rewrite Hd at 1. cbv zeta.
  rewrite elem_of_elements, elem_of_list_to_set.
  set (names := map pattern_name _).
  destruct (bool_decide ("syn_flood" ∈ names)),
    (bool_decide ("udp_flood" ∈ names)),
    (bool_decide ("http_flood" ∈ names)),
    (bool_decide ("amplification" ∈ names));
    rewrite ?elem_of_app; rewrite ?elem_of_nil; tauto.
Qed.

(** X23: when at least one pattern was detected, the recommendation list has no
    duplicates and holds the three general recommendations; it holds the SYN
    cookie recommendation exactly when a SYN-flood match with a confidence
    above 0.5 is among the detected patterns. *)
Theorem recommendations_content (detected : list PatternMatch) :
  detected <> [] ->
  let recs := _generate_recommendations detected in
  NoDup recs
  /\ (forall r, r ∈ general_recommendations -> r ∈ recs)
  /\ ("Enable SYN cookies on servers" ∈ recs
      <-> exists m, m ∈ detected /\ pattern_name m = "syn_flood"
                    /\ (0.5 <? confidence m) = true).
Proof.
  intros Hne. cbv zeta.
  destruct detected as [|m0 rest] eqn:Hd; [congruence|]. rewrite <- Hd.
  assert (Hd' : detected = m0 :: tl detected) by (rewrite Hd; reflexivity).
  split; [|split].
  - unfold _generate_recommendations. rewrite Hd at 1. apply NoDup_elements.
  - intros r Hr. apply (elem_of_recommendations detected m0 r Hd'). tauto.
  - rewrite (elem_of_recommendations detected m0 _ Hd').
    set (names := map pattern_name _).
    assert (Hsyn : "syn_flood" ∈ names
                   <-> exists m, m ∈ detected /\ pattern_name m = "syn_flood"
                                 /\ (0.5 <? confidence m) = true).
    { unfold names. rewrite list_elem_of_fmap. split.
      - intros (m & Hn & Hm). apply list_elem_of_In, filter_In in Hm as [Hin Hc].
        exists m. rewrite list_elem_of_In. auto.
      - intros (m & Hin & Hn & Hc). exists m. split; [auto|].
        apply list_elem_of_In, filter_In. rewrite <- list_elem_of_In. auto. }
    rewrite <- Hsyn. clear Hsyn.
    destruct (bool_decide ("syn_flood" ∈ names)) eqn:Hb.
    + apply bool_decide_eq_true in Hb. split; [intros _; exact Hb|].
      intros _. left. left.
    + apply bool_decide_eq_false in Hb. split; [|contradiction].
      intros H. exfalso.
      repeat match type of H with
      | _ \/ _ => destruct H as [H|H]
      end;
      repeat match type of H with
      | context [bool_decide ?P] => destruct (bool_decide P)
      end;
      unfold general_recommendations in H;
      rewrite ?elem_of_cons, ?elem_of_nil in H;
      intuition discriminate.
Qed.

Lemma recommendations_content_witness :
  NoDup (_generate_recommendations [mkPatternMatch "slowloris" "" 0 [] "low"]).
Proof.
  apply (recommendations_content [mkPatternMatch "slowloris" "" 0 [] "low"]).
  discriminate.
Defined.
End ScanFacts.

(** ** More on [MetricsCalculator] *)

Module SeverityFacts.
Import Binary64 Binary64Facts MetricsCalculator Spec MetricsCalculatorFacts.
Local Open Scope float_scope.

(** X24: whatever the inputs (NaN and infinities included), the overall severity
    lies in [0.5, 10]: the duration score is never below 0.5. The sub-scores
    stay in [0, 4], [0.5, 3] and [0, 3], and the level is one of the five
    names. *)
Theorem attack_severity_ranges
    (traffic_volume baseline_volume duration_minutes : float)
    (affected_services : Z) :
  let r := calculate_attack_severity traffic_volume baseline_volume
             duration_minutes affected_services in
  (0.5 <=? overall_severity r) = true
  /\ (overall_severity r <=? 10) = true
  /\ (0 <=? volume_impact r) = true /\ (volume_impact r <=? 4) = true
  /\ (0.5 <=? duration_impact r) = true /\ (duration_impact r <=? 3) = true
  /\ (0 <=? service_impact r) = true /\ (service_impact r <=? 3) = true
  /\ severity_level r ∈ ["Critical"; "High"; "Medium"; "Low"; "Minimal"].
Proof.
  cbv zeta. unfold calculate_attack_severity. cbv zeta.
  set (ratio := if 0 <? baseline_volume then _ else _).
  destruct (10 <? ratio); [|destruct (5 <? ratio); [|destruct (2 <? ratio);
    [|destruct (1.5 <? ratio)]]];
  (destruct (240 <? duration_minutes); [|destruct (60 <? duration_minutes);
    [|destruct (15 <? duration_minutes)]]);
  (destruct (5 <? affected_services)%Z; [|destruct (2 <? affected_services)%Z;
    [|destruct (0 <? affected_services)%Z]]);
  cbn [overall_severity volume_impact duration_impact service_impact
       severity_level];
  repeat split; try (vm_compute; reflexivity);
  match goal with
  | |- ?x ∈ _ => let y := eval vm_compute in x in change x with y
  end;
  rewrite !elem_of_cons; auto 10.
Qed.

(** X25: more affected services never lower the overall severity. *)
Theorem attack_severity_monotone_in_services
    (traffic_volume baseline_volume duration_minutes : float)
    (s s' : Z) :
  (s <= s')%Z ->
  (overall_severity (calculate_attack_severity traffic_volume
                       baseline_volume duration_minutes s)
   <=? overall_severity (calculate_attack_severity traffic_volume
                           baseline_volume duration_minutes s')) = true.
Proof.
  intros Hle. unfold calculate_attack_severity. cbv zeta.
  set (ratio := if 0 <? baseline_volume then _ else _).
  destruct (10 <? ratio); [|destruct (5 <? ratio); [|destruct (2 <? ratio);
    [|destruct (1.5 <? ratio)]]];
  (destruct (240 <? duration_minutes); [|destruct (60 <? duration_minutes);
    [|destruct (15 <? duration_minutes)]]);
  cbn [overall_severity];
  destruct (Z.ltb_spec 5 s), (Z.ltb_spec 2 s), (Z.ltb_spec 0 s),
    (Z.ltb_spec 5 s'), (Z.ltb_spec 2 s'), (Z.ltb_spec 0 s');
  try lia; vm_compute; reflexivity.
Qed.

Lemma attack_severity_monotone_in_services_witness :
  (overall_severity (calculate_attack_severity 1000 100 300 1)
   <=? overall_severity (calculate_attack_severity 1000 100 300 6)) = true.
Proof. apply attack_severity_monotone_in_services. lia. Defined.

(** *** Which entries [calculate_mitigation_effectiveness] reports *)

(** X26: an improvement is reported for a metric exactly when the metric is in
    both dicts with a positive value before mitigation; the overall entry is
    there exactly when some improvement is, and it comes last. *)
Theorem mitigation_effectiveness_keys (b c : gmap string float) :
  let e := calculate_mitigation_effectiveness b c in
  (forall metric key, (metric, key) ∈ metric_keys ->
     key ∈ e.*1
     <-> exists x y, b !! metric = Some x /\ c !! metric = Some y
                     /\ (0 <? x) = true)
  /\ ("overall_effectiveness" ∈ e.*1 <-> e <> [])
  /\ (e <> [] -> exists v, last e = Some ("overall_effectiveness", v)).
Proof.
  cbv zeta. unfold calculate_mitigation_effectiveness.
  assert (Himp : forall metric,
            is_Some (improvement metric b c)
            <-> exists x y, b !! metric = Some x /\ c !! metric = Some y
                            /\ (0 <? x) = true).
  { intros metric. unfold improvement.
    destruct (b !! metric) as [x|], (c !! metric) as [y|];
      try (split; [intros [? ?]; discriminate
                  | intros (? & ? & ? & ? & ?); discriminate]).
    destruct (0 <? x) eqn:Hx.
    - split; [intros _; eauto | intros _; eexists; reflexivity].
    - split; [intros [? ?]; discriminate|].
      intros (x' & y' & [= <-] & _ & ?). congruence. }
  split; [|split].
  - intros metric key Hm. rewrite <- Himp. unfold metric_keys in Hm.
    repeat (apply elem_of_cons in Hm as [Hm|Hm];
            [injection Hm as -> ->|]);
    [ | | | apply elem_of_nil in Hm; contradiction ];
    destruct (improvement "traffic_volume" b c),
      (improvement "response_time" b c),
      (improvement "error_rate" b c); cbn;
    rewrite ?elem_of_cons, ?elem_of_nil;
    (split; [intros H; try (eexists; reflexivity);
             exfalso; intuition discriminate
            | intros [? H]; try discriminate; auto 10]).
  - destruct (improvement "traffic_volume" b c),
      (improvement "response_time" b c),
      (improvement "error_rate" b c); cbn;
    rewrite ?elem_of_cons, ?elem_of_nil;
    (split; [intros H; try discriminate; exfalso; intuition discriminate
            | intros H; try congruence; auto 10]).
  - destruct (improvement "traffic_volume" b c),
      (improvement "response_time" b c),
      (improvement "error_rate" b c); cbn; intros H;
    try congruence; eexists; reflexivity.
Qed.
End SeverityFacts.

(** ** The processor and the extractor in binary64 *)

Module RoundingFacts.
Import Pandas Binary64 DoSDataProcessor64 Features Spec Vocabulary.
Import PandasFacts ValueCountsFacts SourceFacts.
Local Open Scope float_scope.

(** *** NaN *)

Lemma add_nan (x : float) : x + nan = nan.
Proof.
  rewrite <- (SF2Prim_Prim2SF (x + nan)), add_spec.
  change (Prim2SF nan) with S754_nan.
  unfold SF64add, SFadd. destruct (Prim2SF x); reflexivity.
Qed.

Lemma div_nan (x : float) : x / nan = nan.
Proof.
  rewrite <- (SF2Prim_Prim2SF (x / nan)), div_spec.
  change (Prim2SF nan) with S754_nan.
  unfold SF64div, SFdiv. destruct (Prim2SF x); reflexivity.
Qed.

Lemma nan_ltb (x : float) : (nan <? x) = false.
Proof. rewrite ltb_spec. reflexivity. Qed.

(** *** Entropy *)

Lemma counts_sorted (l : list string) :
  StronglySorted (λ a b : nat, (b <= a)%nat) (map snd (value_counts l)).
Proof.
  apply (StronglySorted_fmap snd count_ge (λ a b : nat, (b <= a)%nat));
    [|apply value_counts_sorted].
  intros x y H. exact H.
Qed.

(** The counts that [value_counts] lists, largest first, are the same list
    for every order of the observations. *)
Lemma counts_order_independent (ips ips' : list string) :
  ips ≡ₚ ips' -> map snd (value_counts ips) = map snd (value_counts ips').
Proof.
  intros H.
  apply (StronglySorted_unique_strong (λ a b : nat, (b <= a)%nat)).
  - intros x y _ _ Hxy Hyx. lia.
  - apply counts_sorted.
  - apply counts_sorted.
  - apply Permutation_map, value_counts_order, H.
Qed.

(** X27: in binary64 too the source entropy does not depend on the order of
    the observations, and not by a rounding error either: the two results are
    the same binary64 number, whatever [np.log2] returns, because the counts
    reach [_calculate_entropy] sorted. *)
Theorem entropy_same_float_in_any_order (log2 : float -> float)
    (ips ips' : list string) :
  ips ≡ₚ ips' ->
  _calculate_entropy log2 (map snd (value_counts ips))
  = _calculate_entropy log2 (map snd (value_counts ips')).
Proof.
  intros H. rewrite (counts_order_independent ips ips' H). reflexivity.
Qed.

Lemma entropy_same_float_in_any_order_witness :
  _calculate_entropy ScoreSpec.sample_log2
    (map snd (value_counts ["a"; "b"; "a"]))
  = _calculate_entropy ScoreSpec.sample_log2
      (map snd (value_counts ["a"; "a"; "b"])).
Proof.
  apply entropy_same_float_in_any_order.
  apply perm_skip, Permutation_swap.
Defined.

(** *** The detection called on its own *)

(** X28: whatever the frame and whatever [np.log2] returns, NaN and the
    infinities included, the score that [_detect_traffic_anomalies] reports
    is a number and is at most 10: a sum of terms that is NaN or above 10
    is reported as 10. *)
Theorem detection_score_at_most_ten (log2 : float -> float)
    (data : DataFrame) :
  (anomaly_score (_detect_traffic_anomalies log2 data) <=? 10) = true.
Proof.
  unfold _detect_traffic_anomalies.
  destruct (is_empty data); cbn [anomaly_score]; [reflexivity|].
  unfold _calculate_anomaly_score. cbv zeta. unfold py_min at 1.
  match goal with
  | |- ((if ?s <? 10 then _ else _) <=? 10) = true =>
      destruct (s <? 10) eqn:E;
      [apply Binary64Facts.ltb_leb, E | reflexivity]
  end.
Qed.

(** X29: when the requests of the frame all fall in the same minute, the
    detection flags no high-volume period: the deviation of a single window
    is NaN, so is the threshold, and no count is above NaN. *)
Theorem one_window_is_never_flagged (log2 : float -> float)
    (data : DataFrame) (ts : list Z) :
  col_timestamp data = Some ts ->
  (length (resample_bins ts) <= 1)%nat ->
  high_volume_periods (_detect_traffic_anomalies log2 data) = [].
Proof.
  intros Hts Hone. unfold _detect_traffic_anomalies.
  destruct (is_empty data); [reflexivity|].
  cbn [high_volume_periods]. rewrite Hts.
  unfold set_index_timestamp. rewrite Hts. cbn [df_index index_instants].
  unfold resample_size.
  destruct (resample_bins ts) as [|b [|b' bs]]; [reflexivity| |cbn in Hone; lia].
  cbn [map length snd]. unfold Numpy.Series_std. cbn [length Nat.leb].
  change (3 * nan) with nan. rewrite add_nan.
  cbn [List.filter snd]. rewrite nan_ltb. reflexivity.
Qed.

Lemma one_window_is_never_flagged_witness :
  (length (resample_bins [5%Z; 20%Z; 59%Z; 31%Z]) <= 1)%nat
  /\ high_volume_periods
       (_detect_traffic_anomalies ScoreSpec.sample_log2 same_minute) = [].
Proof.
  assert (H : (length (resample_bins [5%Z; 20%Z; 59%Z; 31%Z]) <= 1)%nat)
    by (vm_compute; lia).
  split; [exact H|].
  apply (one_window_is_never_flagged _ same_minute [5%Z; 20%Z; 59%Z; 31%Z]);
    [reflexivity | exact H].
Defined.

(** *** Normalized sizes *)

(** X17: a batch of fewer than two rows has no normalized size: the
    deviation of fewer than two sizes is NaN, and so is every size divided
    by it. *)
Theorem normalized_sizes_need_two_rows (b : list Z) :
  (length b <= 1)%nat ->
  Forall (λ v, v = nan) (normalized_sizes b).
Proof.
  intros Hlen. unfold normalized_sizes. rewrite Forall_fmap.
  apply Forall_forall. intros x _. cbn.
  unfold Numpy.Series_std. apply Nat.leb_le in Hlen. rewrite Hlen.
  apply div_nan.
Qed.

Lemma normalized_sizes_need_two_rows_witness :
  Forall (λ v, v = nan) (normalized_sizes [100%Z]).
Proof. apply normalized_sizes_need_two_rows. cbn. lia. Defined.
End RoundingFacts.
